(** * Time-Entry-Tool: the upload pipeline of [Time_Entry/app.py]

    A shallow embedding of the POST branch of [upload], from the point
    where both spreadsheets have been read ([all_rows] of the monthly
    sheet, [mgr_rows] of the manager list) to the list of entries handed to
    the result template.

    Cell values are Python objects: [None], booleans, integers and
    strings; floating-point and date cells, which the code treats like
    integers (truthy unless zero, no [strip] method), are left out.  Strings
    are sequences of code points below 256; [strip] and [lower] follow
    Python's [str] methods on that range.  A [return ..., 400] and an
    exception that leaves [upload] are both outcomes of the embedding, kept
    apart.  The checks on the uploaded file names, the choice of the
    "Missing Time" sheet and the reading of the files come before and are
    not part of the embedding. *)

From Stdlib Require Import ZArith String Ascii DecimalString.
From stdpp Require Import gmap strings list.

Local Open Scope string_scope.

(** ** Python strings *)

Module Py.

(** [str.isspace] on one code point below 256. *)
Definition isspace (c : ascii) : bool :=
  let n := nat_of_ascii c in
  (((9 <=? n) && (n <=? 13)) || ((28 <=? n) && (n <=? 32))
   || (n =? 133) || (n =? 160))%nat.

(** [str.lower] on one code point below 256. *)
Definition lower_char (c : ascii) : ascii :=
  let n := nat_of_ascii c in
  if (((65 <=? n) && (n <=? 90))
      || ((192 <=? n) && (n <=? 222) && negb (n =? 215)))%nat
  then ascii_of_nat (n + 32) else c.

(** [s.lower()] *)
Fixpoint lower (s : string) : string :=
  match s with
  | EmptyString => EmptyString
  | String c s' => String (lower_char c) (lower s')
  end.

Fixpoint lstrip (s : string) : string :=
  match s with
  | EmptyString => EmptyString
  | String c s' => if isspace c then lstrip s' else s
  end.

Fixpoint rstrip (s : string) : string :=
  match s with
  | EmptyString => EmptyString
  | String c s' =>
      match rstrip s' with
      | EmptyString => if isspace c then EmptyString else String c EmptyString
      | r => String c r
      end
  end.

(** [s.strip()] *)
Definition strip (s : string) : string := rstrip (lstrip s).

(** [sub in s] *)
Fixpoint contains (sub s : string) : bool :=
  String.prefix sub s
  || match s with
     | EmptyString => false
     | String _ s' => contains sub s'
     end.

(** [s.split(sep, 1)] for a one-character separator. *)
Fixpoint split1 (sep : ascii) (s : string) : list string :=
  match s with
  | EmptyString => [EmptyString]
  | String c s' =>
      if Ascii.eqb c sep then [EmptyString; s']
      else match split1 sep s' with
           | p :: ps => String c p :: ps
           | [] => [String c s']
           end
  end.

End Py.

(** ** Cell values *)

Inductive value : Type :=
  | VNone
  | VBool (b : bool)
  | VInt (n : Z)
  | VStr (s : string).

(** Python's truth value of a cell. *)
Definition truthy (v : value) : bool :=
  match v with
  | VNone => false
  | VBool b => b
  | VInt n => negb (n =? 0)%Z
  | VStr s => negb (String.eqb s "")
  end.

(** [str(v)] *)
Definition str (v : value) : string :=
  match v with
  | VNone => "None"
  | VBool true => "True"
  | VBool false => "False"
  | VInt n => NilZero.string_of_int (Z.to_int n)
  | VStr s => s
  end.

(** [v or ''] *)
Definition or_empty (v : value) : value :=
  if truthy v then v else VStr "".

Definition row : Type := list value.

(** ** Outcomes of a request *)

Inductive exn : Type := AttributeError | IndexError | StopIteration.

Inductive error : Type :=
  | HeaderNotFound
  | ColumnNotFound
  | RosterHeaderNotFound.

Inductive outcome (A : Type) : Type :=
  | Ok (a : A)
  | Status400 (e : error)
  | Raised (x : exn).
Arguments Ok {A} a.
Arguments Status400 {A} e.
Arguments Raised {A} x.

#[global] Instance outcome_ret : MRet outcome := fun A a => Ok a.
#[global] Instance outcome_bind : MBind outcome := fun A B k m =>
  match m with
  | Ok a => k a
  | Status400 e => Status400 e
  | Raised x => Raised x
  end.

(** The HTTP status the client sees. *)
Definition status {A} (o : outcome A) : nat :=
  match o with
  | Ok _ => 200
  | Status400 _ => 400
  | Raised _ => 500
  end.

(** [r[i]] for [i >= 0] *)
Definition getitem (r : row) (i : nat) : outcome value :=
  match r !! i with
  | Some v => Ok v
  | None => Raised IndexError
  end.

(** [next(i for i, h in enumerate(l) if p(h))], [None] standing for
    [StopIteration] or the default. *)
Fixpoint first_index {A} (p : A -> bool) (l : list A) : option nat :=
  match l with
  | [] => None
  | h :: t => if p h then Some 0 else S <$> first_index p t
  end.

(** ** Header detection *)

(** [(cell.v or '').strip()] *)
Definition cell_text (v : value) : outcome string :=
  match or_empty v with
  | VStr s => Ok (Py.strip s)
  | _ => Raised AttributeError
  end.

(** [vals = [(cell.v or '').strip() for cell in row]] *)
Fixpoint row_vals (r : row) : outcome (list string) :=
  match r with
  | [] => Ok []
  | v :: r' => s ← cell_text v; ss ← row_vals r'; Ok (s :: ss)
  end.

Definition is_level (h : string) : bool := Py.contains "level" (Py.lower h).
Definition is_empname (h : string) : bool :=
  Py.contains "emp" (Py.lower h) && Py.contains "name" (Py.lower h).
Definition is_email (h : string) : bool := Py.contains "email" (Py.lower h).
Definition is_missing (h : string) : bool :=
  forallb (fun x => Py.contains x (Py.lower h)) ["sum"; "missing"; "time"].

Definition is_monthly_header (vals : list string) : bool :=
  existsb is_level vals && existsb is_empname vals
  && existsb is_email vals && existsb is_missing vals.

Definition is_roster_header (vals : list string) : bool :=
  existsb is_email vals.

(** The [for i, row in enumerate(rows)] loop with its [break]: the index and
    the trimmed values of the first row accepted by [accept], starting the
    count at [i]. *)
Fixpoint scan_header (accept : list string -> bool) (i : nat) (rows : list row)
  : outcome (option (nat * list string)) :=
  match rows with
  | [] => Ok None
  | r :: rest =>
      vals ← row_vals r;
      if accept vals then Ok (Some (i, vals))
      else scan_header accept (S i) rest
  end.

(** Step 5: [header_idx], [headers], or the 400 answer. *)
Definition detect_header (all_rows : list row) : outcome (nat * list string) :=
  found ← scan_header is_monthly_header 0 all_rows;
  match found with
  | Some hit => Ok hit
  | None => Status400 HeaderNotFound
  end.

Record columns : Type := Columns {
  idx_level : nat;
  idx_empinfo : nat;
  idx_email : nat;
  idx_missing : nat
}.

(** Step 6: the four [next(...)] calls inside [try ... except StopIteration]. *)
Definition locate_columns (headers : list string) : outcome columns :=
  match first_index is_level headers, first_index is_empname headers,
        first_index is_email headers, first_index is_missing headers with
  | Some l, Some e, Some m, Some s => Ok (Columns l e m s)
  | _, _, _, _ => Status400 ColumnNotFound
  end.

(** ** The manager list *)

(** Step 7: [hdr2] with its index, or the 400 answer. *)
Definition detect_roster_header (mgr_rows : list row)
  : outcome (nat * list string) :=
  found ← scan_header is_roster_header 0 mgr_rows;
  match found with
  | Some hit => Ok hit
  | None => Status400 RosterHeaderNotFound
  end.

Definition is_name_not_email (h : string) : bool :=
  Py.contains "name" (Py.lower h) && negb (Py.contains "email" (Py.lower h)).

(** [str(v).strip().lower()] *)
Definition normalize (v : value) : string := Py.lower (Py.strip (str v)).

(** [{str(r[idx]).strip().lower() for r in mgr_data if r[idx]}] *)
Fixpoint lookup_set (idx : nat) (mgr_data : list row) : outcome (gset string) :=
  match mgr_data with
  | [] => Ok ∅
  | r :: rest =>
      v ← getitem r idx;
      s ← lookup_set idx rest;
      Ok (if truthy v then {[normalize v]} ∪ s else s)
  end.

(** ** Filtering *)

Record entry : Type := Entry {
  Level : value;
  Name : string;
  Email_ID : value;
  Missing_Time : value
}.

(** [lvl_cell is not None and str(lvl_cell).strip()] *)
Definition is_group_header (lvl_cell : value) : bool :=
  match lvl_cell with
  | VNone => false
  | _ => negb (String.eqb (Py.strip (str lvl_cell)) "")
  end.

(** [str(raw_email).strip().lower() if raw_email else ''] *)
Definition email_key (raw_email : value) : string :=
  if truthy raw_email then normalize raw_email else "".

(** [str(row[idx_empinfo] or '')] *)
Definition empinfo_of (cell : value) : string := str (or_empty cell).

(** [parts[1].strip() if len(parts) > 1 else empinfo.strip()] with
    [parts = empinfo.split('-', 1)] *)
Definition name_part (empinfo : string) : string :=
  match Py.split1 "-" empinfo with
  | _ :: p :: _ => Py.strip p
  | _ => Py.strip empinfo
  end.

Definition name_key (empinfo : string) : string := Py.lower (name_part empinfo).

(** [email_key in mgr_emails or name_key in mgr_names] *)
Definition matches (mgr_emails mgr_names : gset string)
    (raw_email : value) (empinfo : string) : bool :=
  bool_decide (email_key raw_email ∈ mgr_emails)
  || bool_decide (name_key empinfo ∈ mgr_names).

(** One iteration of the loop of step 8 on the state
    [(current_level, results)]. *)
Definition filter_row (ix : columns) (mgr_emails mgr_names : gset string)
    (st : value * list entry) (r : row) : outcome (value * list entry) :=
  let '(current_level, results) := st in
  lvl_cell ← getitem r (idx_level ix);
  if is_group_header lvl_cell then Ok (lvl_cell, results)
  else
    raw_email ← getitem r (idx_email ix);
    cell ← getitem r (idx_empinfo ix);
    let empinfo := empinfo_of cell in
    if matches mgr_emails mgr_names raw_email empinfo then
      missing ← getitem r (idx_missing ix);
      Ok (current_level,
          (results ++ [Entry current_level (name_part empinfo) raw_email missing])%list)
    else Ok (current_level, results).

(** [for row in data: ...] *)
Fixpoint filter_rows (ix : columns) (mgr_emails mgr_names : gset string)
    (st : value * list entry) (data : list row) : outcome (value * list entry) :=
  match data with
  | [] => Ok st
  | r :: rest =>
      st' ← filter_row ix mgr_emails mgr_names st r;
      filter_rows ix mgr_emails mgr_names st' rest
  end.

(** The lookup sets of the manager list: steps 7 and "build lookup sets". *)
Definition roster_sets (mgr_rows : list row)
  : outcome (gset string * gset string) :=
  '(i, hdr2) ← detect_roster_header mgr_rows;
  let mgr_data := drop (S i) mgr_rows in
  idx_email_mgr ← match first_index is_email hdr2 with
                   | Some j => Ok j
                   | None => Raised StopIteration
                   end;
  let idx_name_mgr := first_index is_name_not_email hdr2 in
  mgr_emails ← lookup_set idx_email_mgr mgr_data;
  mgr_names ← match idx_name_mgr with
               | Some j => lookup_set j mgr_data
               | None => Ok ∅
               end;
  Ok (mgr_emails, mgr_names).

(** Steps 5 to 8 of [upload]: the entries rendered by [result.html]. *)
Definition upload (all_rows mgr_rows : list row) : outcome (list entry) :=
  '(header_idx, headers) ← detect_header all_rows;
  let data := drop (S header_idx) all_rows in
  ix ← locate_columns headers;
  '(mgr_emails, mgr_names) ← roster_sets mgr_rows;
  '(_, results) ← filter_rows ix mgr_emails mgr_names (VNone, []) data;
  Ok results.

(** ** Specification-side notions *)

(** A cell that [(cell.v or '').strip()] accepts: a string, or any falsy
    value (which [or ''] replaces by the empty string). *)
Definition strippable (v : value) : bool :=
  match v with
  | VStr _ => true
  | _ => negb (truthy v)
  end.

(** A cell that is neither a string nor [None]. *)
Definition non_string (v : value) : bool :=
  match v with
  | VStr _ | VNone => false
  | _ => true
  end.

(** The row is read without an exception and [accept]s. *)
Definition qualifies (accept : list string -> bool) (r : row) : Prop :=
  ∃ vals, row_vals r = Ok vals ∧ accept vals = true.

(** The row is read without an exception and is passed over. *)
Definition passed_over (accept : list string -> bool) (r : row) : Prop :=
  ∃ vals, row_vals r = Ok vals ∧ accept vals = false.

(** The scan reaches a row holding a truthy non-string cell: every row
    above it was read and passed over. *)
Definition trips (accept : list string -> bool) (rows : list row) : Prop :=
  ∃ pre r post,
    rows = (pre ++ r :: post)%list
    ∧ Forall (passed_over accept) pre
    ∧ Exists (λ v, truthy v && non_string v = true) r.

(** The Level cell of the row is blank: the row is not a group header. *)
Definition blank_level (ix : columns) (r : row) : Prop :=
  ∃ lvl, r !! idx_level ix = Some lvl ∧ is_group_header lvl = false.

(** The row has a cell in each of the four located columns. *)
Definition wide (ix : columns) (r : row) : Prop :=
  is_Some (r !! idx_level ix) ∧ is_Some (r !! idx_email ix)
  ∧ is_Some (r !! idx_empinfo ix) ∧ is_Some (r !! idx_missing ix).

Definition cell (r : row) (i : nat) : value := default VNone (r !! i).

(** [j] is the position of the leftmost element of [l] that satisfies [p]. *)
Definition leftmost {A} (p : A → bool) (l : list A) (j : nat) : Prop :=
  (∃ h, l !! j = Some h ∧ p h = true)
  ∧ (∀ k h, k < j → l !! k = Some h → p h = false).

(** The level in force when each row of [data] is read, starting from
    [cur]: the raw Level cell of the last group header above it. *)
Fixpoint carried_levels (ix : columns) (cur : value) (data : list row)
  : list value :=
  match data with
  | [] => []
  | r :: rest =>
      cur :: carried_levels ix
               (if is_group_header (cell r (idx_level ix))
                then cell r (idx_level ix) else cur) rest
  end.

(** The match filter: not a group header, and matched by email or by name. *)
Definition selected (ix : columns) (mgr_emails mgr_names : gset string)
    (r : row) : bool :=
  negb (is_group_header (cell r (idx_level ix)))
  && matches mgr_emails mgr_names (cell r (idx_email ix))
       (empinfo_of (cell r (idx_empinfo ix))).

(** The entry of a data row read while [lvl] is in force. *)
Definition entry_of (ix : columns) (lvl : value) (r : row) : entry :=
  Entry lvl (name_part (empinfo_of (cell r (idx_empinfo ix))))
        (cell r (idx_email ix)) (cell r (idx_missing ix)).

(** The rows of [data] that pass the match filter, in their order, each
    mapped to its entry. *)
Definition expected_entries (ix : columns) (mgr_emails mgr_names : gset string)
    (cur : value) (data : list row) : list entry :=
  map (λ p, entry_of ix p.1 p.2)
      (List.filter (λ p, selected ix mgr_emails mgr_names p.2)
                   (zip (carried_levels ix cur data) data)).

(** ** Sample sheets *)

Module Sample.

Definition header : row :=
  [VStr "Level"; VStr "Emp ID - Name"; VStr "Email ID";
   VStr "Sum of Missing Time"].

Definition ix : columns := Columns 0 1 2 3.

Definition roster : list row := [[VStr "Email"]; [VStr "a@x.com"]].

Definition emails : gset string := {["a@x.com"]}.

Definition team_a : row := [VStr "Team A"; VStr ""; VStr ""; VStr ""].
Definition jane : row := [VStr ""; VStr "1 - Jane"; VStr "a@x.com"; VInt 5].

(** A flat sheet: the Level cell is filled in on the employee's own row. *)
Definition flat_jane : row :=
  [VStr "Team A"; VStr "1 - Jane"; VStr "a@x.com"; VInt 5].

(** A row above the header that holds a number. *)
Definition number_row : row := [VInt 5].
Definition zero_row : row := [VInt 0].

(** A manager list whose header says "Mail", with numeric employee ids. *)
Definition roster_no_email : list row :=
  [[VStr "Emp ID"; VStr "Name"; VStr "Mail"];
   [VInt 12345; VStr "Jane"; VStr "j@x.com"]].

(** A manager list with one cell that holds a single space. *)
Definition roster_blank : list row := [[VStr "Email"]; [VStr " "]].

(** An employee row without Level and without Email. *)
Definition jane_no_email : row := [VNone; VStr "1 - Jane"; VNone; VInt 5].

(** A manager list with names, in another case than the monthly sheet. *)
Definition roster_names : list row :=
  [[VStr "Manager Name"; VStr "Email"]; [VStr " JANE "; VStr "z@x.com"]].

Definition bob : row := [VNone; VStr "2 - Bob"; VStr "b@x.com"; VInt 7].

End Sample.

(** ** The checks on the upload *)

(** [s.rsplit(sep, 1)] for a one-character separator. *)
Fixpoint rsplit1 (sep : ascii) (s : string) : list string :=
  match s with
  | EmptyString => [EmptyString]
  | String c s' =>
      match rsplit1 sep s' with
      | [a; b] => [String c a; b]
      | _ => if Ascii.eqb c sep then [EmptyString; s'] else [String c s']
      end
  end.

Definition ALLOWED_EXT : gset string := {["xlsb"; "xlsx"; "xls"]}.

(** ['.' in fname and fname.rsplit('.', 1)[1].lower() in ALLOWED_EXT] *)
Definition allowed_file (fname : string) : outcome bool :=
  if Py.contains "." fname then
    ext ← match rsplit1 "." fname !! 1 with
          | Some e => Ok e
          | None => Raised IndexError
          end;
    Ok (bool_decide (Py.lower ext ∈ ALLOWED_EXT))
  else Ok false.

(** Step 1, [mf and allowed_file(mf.filename) and lf and
    allowed_file(lf.filename)]: an upload is its file name, [None] when the
    field is missing or the upload is falsy. *)
Definition uploads_ok (mf lf : option string) : outcome bool :=
  match mf with
  | None => Ok false
  | Some m =>
      am ← allowed_file m;
      if (am : bool) then
        match lf with
        | None => Ok false
        | Some l => allowed_file l
        end
      else Ok false
  end.

(** ['missing' in s.lower() and 'time' in s.lower()] *)
Definition is_missing_time_sheet (s : string) : bool :=
  Py.contains "missing" (Py.lower s) && Py.contains "time" (Py.lower s).

(** Step 4, [sheet_name = next((s for s in sheets if ...), None)] and the
    test [if not sheet_name], which answers 400: [None] stands for that
    answer. *)
Definition choose_sheet (sheets : list string) : option string :=
  match List.find is_missing_time_sheet sheets with
  | Some sheet_name =>
      if String.eqb sheet_name "" then None else Some sheet_name
  | None => None
  end.

(** ** Further specification-side notions *)

(** Every code point of the string is white space. *)
Fixpoint whitespace (s : string) : bool :=
  match s with
  | EmptyString => true
  | String c s' => Py.isspace c && whitespace s'
  end.

(** Every row of the sheet has [w] cells. *)
Definition rectangular (w : nat) (rows : list row) : Prop :=
  Forall (λ r : row, length r = w) rows.

(** [lvl] is the level set by the nearest group header above row [k] of
    [data]: the raw Level cell of the last row before [k] whose Level cell
    is not blank, or [None] when no row before [k] is a group header. *)
Definition level_origin (ix : columns) (data : list row) (k : nat)
    (lvl : value) : Prop :=
  (lvl = VNone
   ∧ ∀ j r, j < k → data !! j = Some r →
            is_group_header (cell r (idx_level ix)) = false)
  ∨ ∃ j r,
      j < k ∧ data !! j = Some r
      ∧ r !! idx_level ix = Some lvl ∧ is_group_header lvl = true
      ∧ ∀ j' r', j < j' → j' < k → data !! j' = Some r' →
                 is_group_header (cell r' (idx_level ix)) = false.

(** ** Lemmas on the Python string operations *)

Section Strings.

Lemma prefix_dash (c : ascii) (s : string) :
  String.prefix "-" (String c s) = Ascii.eqb c "-".
Proof.
  change (String.prefix "-" (String c s))
    with (if ascii_dec "-" c then String.prefix "" s else false).
  destruct (ascii_dec "-" c) as [<- | Hne].
  - destruct s; reflexivity.
  - symmetry. apply Ascii.eqb_neq. congruence.
Qed.

Lemma split1_no_dash (s : string) :
  Py.contains "-" s = false → Py.split1 "-" s = [s].
Proof.
  induction s as [| c s IH]; [reflexivity |].
  cbn [Py.contains Py.split1]. rewrite prefix_dash.
  destruct (Ascii.eqb c "-"); [discriminate |].
  cbn. intros H. rewrite (IH H). reflexivity.
Qed.

Lemma split1_first_dash (a b : string) :
  Py.contains "-" a = false →
  Py.split1 "-" (a +:+ String "-" b) = [a; b].
Proof.
  induction a as [| c a IH]; [reflexivity |].
  intros H. cbn [Py.contains] in H. rewrite prefix_dash in H.
  change (String c a +:+ String "-" b) with (String c (a +:+ String "-" b)).
  cbn [Py.split1].
  destruct (Ascii.eqb c "-"); [discriminate |].
  rewrite (IH H). reflexivity.
Qed.

End Strings.

(** ** Lemmas on the scans *)

Section FirstIndex.

Context {A : Type} (p : A → bool).

Lemma first_index_Some (l : list A) (j : nat) :
  first_index p l = Some j ↔ leftmost p l j.
Proof.
  unfold leftmost. revert j. induction l as [| x l IH]; intros j; cbn [first_index].
  - split; [discriminate |]. intros [(h & Hh & _) _]. discriminate.
  - destruct (p x) eqn:Hx.
    + split.
      * intros [= <-]. split; [exists x; auto |]. intros k h Hk. lia.
      * intros [_ Hfirst]. destruct j as [| j]; [reflexivity |].
        specialize (Hfirst 0 x (Nat.lt_0_succ j) eq_refl). congruence.
    + split.
      * destruct (first_index p l) as [j' |] eqn:Hl; [| discriminate].
        intros [= <-]. destruct (proj1 (IH j') eq_refl) as [Hat Hfirst].
        split; [exact Hat |].
        intros [| k] h Hk; cbn; [congruence |]. apply Hfirst. lia.
      * intros [(h & Hh & Hp) Hfirst]. destruct j as [| j].
        { cbn in Hh. congruence. }
        assert (first_index p l = Some j) as ->; [| reflexivity].
        apply IH. split; [exists h; auto |].
        intros k h' Hk Hk'. apply (Hfirst (S k) h'); [lia | exact Hk'].
Qed.

Lemma first_index_None (l : list A) :
  first_index p l = None ↔ existsb p l = false.
Proof.
  induction l as [| x l IH]; cbn; [tauto |].
  destruct (p x); cbn; [split; discriminate |].
  rewrite <- IH. destruct (first_index p l); cbn; split; congruence.
Qed.

Lemma first_index_is_Some (l : list A) :
  existsb p l = true → is_Some (first_index p l).
Proof.
  intros H. destruct (first_index p l) eqn:E; [eauto |].
  apply first_index_None in E. congruence.
Qed.

Lemma first_index_lt (l : list A) (j : nat) :
  first_index p l = Some j → j < length l.
Proof.
  intros [(h & Hh & _) _]%first_index_Some. eapply lookup_lt_Some, Hh.
Qed.

End FirstIndex.

Section Scan.

Lemma cell_text_Ok (v : value) :
  strippable v = true → ∃ s, cell_text v = Ok s.
Proof.
  unfold cell_text, or_empty.
  destruct v as [| b | n | s]; cbn; [eauto | | | ].
  - destruct b; [discriminate | eauto].
  - destruct (n =? 0)%Z; [eauto | discriminate].
  - destruct (String.eqb s ""); cbn; eauto.
Qed.

Lemma cell_text_Raised (v : value) :
  strippable v = false → cell_text v = Raised AttributeError.
Proof.
  unfold cell_text, or_empty.
  destruct v as [| b | n | s]; cbn; try discriminate.
  - destruct b; [reflexivity | discriminate].
  - destruct (n =? 0)%Z; [discriminate | reflexivity].
Qed.

Lemma cell_text_cases (v : value) :
  (∃ s, cell_text v = Ok s) ∨ cell_text v = Raised AttributeError.
Proof.
  destruct (strippable v) eqn:E;
    [left; apply cell_text_Ok, E | right; apply cell_text_Raised, E].
Qed.

Lemma row_vals_Ok (r : row) :
  forallb strippable r = true → ∃ vals, row_vals r = Ok vals.
Proof.
  induction r as [| v r IH]; cbn [forallb row_vals]; [eauto |].
  intros [Hv Hr]%andb_prop.
  destruct (cell_text_Ok v Hv) as [s ->]. destruct (IH Hr) as [ss ->].
  cbn. eauto.
Qed.

Lemma strippable_spec (v : value) :
  strippable v = negb (truthy v && non_string v).
Proof.
  destruct v as [| b | n | s]; cbn; rewrite ?andb_true_r, ?andb_false_r;
    reflexivity.
Qed.

Lemma row_vals_Raised (r : row) :
  Exists (λ v, truthy v && non_string v = true) r ↔
  row_vals r = Raised AttributeError.
Proof.
  induction r as [| v r IH]; cbn [row_vals].
  - split; [intros H; inversion H | discriminate].
  - rewrite Exists_cons. pose proof (strippable_spec v) as Hs.
    destruct (strippable v) eqn:Hv.
    + assert (truthy v && non_string v = false) as Hf
        by (destruct (truthy v && non_string v); cbn in Hs; congruence).
      destruct (cell_text_Ok v Hv) as [s ->]. cbn.
      destruct (row_vals r) as [ss | e | x]; cbn.
      * split; [intros [? | H]; [congruence | apply IH in H; discriminate]
               | discriminate].
      * split; [intros [? | H]; [congruence | apply IH in H; discriminate]
               | discriminate].
      * rewrite IH. split; [intros [? | H]; [congruence | congruence] |].
        intros [= ->]. right. reflexivity.
    + rewrite (cell_text_Raised v Hv). cbn. split; [reflexivity | intros _].
      left. destruct (truthy v && non_string v); cbn in Hs; congruence.
Qed.

Lemma row_vals_cases (r : row) :
  (∃ vals, row_vals r = Ok vals) ∨ row_vals r = Raised AttributeError.
Proof.
  induction r as [| v r IH]; cbn [row_vals]; [eauto |].
  destruct (cell_text_cases v) as [[s ->] | ->]; [| auto]. cbn.
  destruct IH as [[ss ->] | ->]; cbn; eauto.
Qed.

Lemma row_vals_length (r : row) (vals : list string) :
  row_vals r = Ok vals → length vals = length r.
Proof.
  revert vals. induction r as [| v r IH]; intros vals; cbn [row_vals].
  - intros [= <-]. reflexivity.
  - destruct (cell_text v) as [s | |]; cbn; try discriminate.
    destruct (row_vals r) as [ss | |]; cbn; try discriminate.
    intros [= <-]. cbn. f_equal. apply IH. reflexivity.
Qed.

Variable accept : list string → bool.

(** The scan stops at the first row that qualifies. *)
Lemma scan_header_found (pre post : list row) (r : row) (vals : list string)
    (i : nat) :
  Forall (passed_over accept) pre →
  row_vals r = Ok vals → accept vals = true →
  scan_header accept i (pre ++ r :: post) = Ok (Some (i + length pre, vals)).
Proof.
  intros Hpre Hr Hacc. revert i.
  induction Hpre as [| r' pre (vals' & Hv & Hrej) _ IH]; intros i; cbn.
  - rewrite Hr. cbn. rewrite Hacc. do 3 f_equal. lia.
  - rewrite Hv. cbn. rewrite Hrej, IH. do 3 f_equal. lia.
Qed.

(** The scan runs off the end when every row is passed over. *)
Lemma scan_header_none (rows : list row) (i : nat) :
  Forall (passed_over accept) rows → scan_header accept i rows = Ok None.
Proof.
  intros Hrows. revert i.
  induction Hrows as [| r rows (vals & Hv & Hrej) _ IH]; intros i; cbn;
    [reflexivity |].
  rewrite Hv. cbn. rewrite Hrej. apply IH.
Qed.

(** The scan raises at the first row it cannot trim. *)
Lemma scan_header_trips (rows : list row) (i : nat) :
  trips accept rows ↔ scan_header accept i rows = Raised AttributeError.
Proof.
  revert i. induction rows as [| r rows IH]; intros i; cbn [scan_header].
  - split; [| discriminate]. intros (pre & r & post & E & _).
    destruct pre; discriminate.
  - destruct (row_vals_cases r) as [[vals Hv] | Hraise].
    + rewrite Hv. cbn. destruct (accept vals) eqn:Hacc.
      * split; [| discriminate]. intros (pre & r' & post & E & Hpre & Hbad).
        destruct pre as [| r0 pre]; injection E as -> E.
        { apply row_vals_Raised in Hbad. congruence. }
        apply Forall_cons in Hpre as [(vals' & Hv' & Hrej) _]. congruence.
      * rewrite <- IH. split.
        -- intros (pre & r' & post & E & Hpre & Hbad).
           destruct pre as [| r0 pre]; injection E as -> E.
           { apply row_vals_Raised in Hbad. congruence. }
           apply Forall_cons in Hpre as [_ Hpre].
           exists pre, r', post. auto.
        -- intros (pre & r' & post & -> & Hpre & Hbad).
           exists (r :: pre), r', post. split; [reflexivity |].
           split; [| exact Hbad]. constructor; [| exact Hpre].
           exists vals. auto.
    + rewrite Hraise. cbn. split; [reflexivity | intros _].
      exists [], r, rows. split; [reflexivity |].
      split; [constructor | apply row_vals_Raised, Hraise].
Qed.

Lemma scan_header_exn (rows : list row) (i : nat) (x : exn) :
  scan_header accept i rows = Raised x → x = AttributeError.
Proof.
  revert i. induction rows as [| r rows IH]; intros i; cbn [scan_header];
    [discriminate |].
  destruct (row_vals_cases r) as [[vals ->] | ->]; cbn; [| congruence].
  destruct (accept vals); [discriminate | apply IH].
Qed.

Lemma scan_header_no_400 (rows : list row) (i : nat) (e : error) :
  scan_header accept i rows ≠ Status400 e.
Proof.
  revert i. induction rows as [| r rows IH]; intros i; cbn [scan_header];
    [discriminate |].
  destruct (row_vals_cases r) as [[vals ->] | ->]; cbn; [| discriminate].
  destruct (accept vals); [discriminate | apply IH].
Qed.

(** What a successful scan found. *)
Lemma scan_header_Some (rows : list row) (i k : nat) (vals : list string) :
  scan_header accept i rows = Ok (Some (k, vals)) →
  ∃ pre r post,
    rows = (pre ++ r :: post)%list ∧ k = i + length pre
    ∧ Forall (passed_over accept) pre
    ∧ row_vals r = Ok vals ∧ accept vals = true.
Proof.
  revert i. induction rows as [| r rows IH]; intros i; cbn [scan_header];
    [discriminate |].
  destruct (row_vals r) as [vals' | |] eqn:Hv; cbn; try discriminate.
  destruct (accept vals') eqn:Hacc.
  - intros [= <- <-]. exists [], r, rows. cbn.
    split; [reflexivity |]. split; [lia |]. auto.
  - intros (pre & r' & post & -> & -> & Hpre & Hr' & Hacc')%IH.
    exists (r :: pre), r', post. cbn.
    split; [reflexivity |]. split; [lia |]. split; [| auto].
    constructor; [exists vals'; auto | exact Hpre].
Qed.

End Scan.

(** ** Lemmas on the filtering loop *)

Section Filter.

Variables (ix : columns) (mgr_emails mgr_names : gset string).

Lemma getitem_Some (r : row) (i : nat) (v : value) :
  r !! i = Some v → getitem r i = Ok v.
Proof. unfold getitem. intros ->. reflexivity. Qed.

Lemma getitem_cell (r : row) (i : nat) :
  is_Some (r !! i) → getitem r i = Ok (cell r i).
Proof. unfold getitem, cell. intros [v ->]. reflexivity. Qed.

(** One iteration on a row that has its four cells. *)
Lemma filter_row_wide (cur : value) (res : list entry) (r : row) :
  wide ix r →
  filter_row ix mgr_emails mgr_names (cur, res) r =
  Ok (if is_group_header (cell r (idx_level ix))
      then (cell r (idx_level ix), res)
      else (cur, (res ++ if selected ix mgr_emails mgr_names r
                         then [entry_of ix cur r] else [])%list)).
Proof.
  intros (Hl & He & Hi & Hm). unfold filter_row, selected.
  rewrite (getitem_cell _ _ Hl). cbn.
  destruct (is_group_header (cell r (idx_level ix))); [reflexivity |].
  rewrite (getitem_cell _ _ He). cbn. rewrite (getitem_cell _ _ Hi). cbn.
  destruct (matches _ _ _ _); cbn.
  - rewrite (getitem_cell _ _ Hm). reflexivity.
  - rewrite app_nil_r. reflexivity.
Qed.

Lemma filter_rows_app (st : value * list entry) (pre post : list row) :
  filter_rows ix mgr_emails mgr_names st (pre ++ post) =
  st' ← filter_rows ix mgr_emails mgr_names st pre;
  filter_rows ix mgr_emails mgr_names st' post.
Proof.
  revert st. induction pre as [| r pre IH]; intros st; cbn; [reflexivity |].
  destruct (filter_row ix mgr_emails mgr_names st r); cbn; auto.
Qed.

(** Rows that are not group headers leave the level alone and only append
    entries that carry it. *)
Lemma filter_rows_blank (cur cur' : value) (res res' : list entry)
    (rows : list row) :
  Forall (blank_level ix) rows →
  filter_rows ix mgr_emails mgr_names (cur, res) rows = Ok (cur', res') →
  cur' = cur
  ∧ ∃ new, res' = (res ++ new)%list ∧ Forall (λ e, Level e = cur) new.
Proof.
  intros Hrows. revert res.
  induction Hrows as [| r rows (lvl & Hlvl & Hblank) _ IH]; intros res;
    cbn [filter_rows].
  - intros [= <- <-]. split; [reflexivity |]. exists []. rewrite app_nil_r. auto.
  - unfold filter_row. rewrite (getitem_Some _ _ _ Hlvl). cbn.
    rewrite Hblank.
    destruct (getitem r (idx_email ix)) as [raw | |]; cbn; try discriminate.
    destruct (getitem r (idx_empinfo ix)) as [c | |]; cbn; try discriminate.
    destruct (matches _ _ _ _); cbn; [| apply IH].
    destruct (getitem r (idx_missing ix)) as [m | |]; cbn; try discriminate.
    intros (-> & new & -> & Hnew)%IH. split; [reflexivity |].
    eexists (_ :: new). rewrite <- app_assoc. split; [reflexivity |].
    constructor; [reflexivity | exact Hnew].
Qed.

(** The loop on rows that have their four cells. *)
Lemma filter_rows_wide (cur : value) (res : list entry) (data : list row) :
  Forall (wide ix) data →
  ∃ cur',
    filter_rows ix mgr_emails mgr_names (cur, res) data =
    Ok (cur', (res ++ expected_entries ix mgr_emails mgr_names cur data)%list).
Proof.
  intros Hdata. revert cur res.
  induction Hdata as [| r data Hr _ IH]; intros cur res.
  - exists cur. cbn. rewrite app_nil_r. reflexivity.
  - cbn [filter_rows]. rewrite (filter_row_wide _ _ _ Hr). cbn.
    unfold expected_entries. cbn [carried_levels zip zip_with List.filter].
    cbn [snd fst].
    destruct (is_group_header (cell r (idx_level ix))) eqn:Hg.
    + unfold selected at 1. rewrite Hg. cbn [negb andb].
      apply IH.
    + unfold selected at 2. unfold selected at 1. rewrite Hg. cbn [negb andb].
      destruct (matches _ _ _ _) eqn:Hm.
      * destruct (IH cur (res ++ [entry_of ix cur r])%list) as [cur' ->].
        exists cur'. cbn [map fst snd]. rewrite <- app_assoc. reflexivity.
      * destruct (IH cur (res ++ [])%list) as [cur' ->].
        exists cur'. rewrite app_nil_r. reflexivity.
Qed.

End Filter.

(** [upload] once the header, the columns and the lookup sets are known. *)
Lemma upload_stages (all_rows mgr_rows : list row) (i : nat)
    (headers : list string) (ix : columns) (E N : gset string) :
  detect_header all_rows = Ok (i, headers) →
  locate_columns headers = Ok ix →
  roster_sets mgr_rows = Ok (E, N) →
  upload all_rows mgr_rows =
  st ← filter_rows ix E N (VNone, []) (drop (S i) all_rows); Ok st.2.
Proof.
  intros Hh Hc Hr. unfold upload. rewrite Hh. cbn. rewrite Hc. cbn.
  rewrite Hr. cbn. destruct (filter_rows _ _ _ _ _) as [[? ?] | |]; reflexivity.
Qed.

(** ** Lemmas on the lookup sets *)

Lemma lookup_set_spec (idx : nat) (mgr_data : list row) :
  Forall (λ r, is_Some (r !! idx)) mgr_data →
  ∃ S : gset string,
    lookup_set idx mgr_data = Ok S
    ∧ ∀ x, x ∈ S ↔
           ∃ r v, r ∈ mgr_data ∧ r !! idx = Some v
                  ∧ truthy v = true ∧ x = normalize v.
Proof.
  induction 1 as [| r data [v Hv] _ (S & HS & Hspec)]; cbn [lookup_set].
  - exists ∅. split; [reflexivity |]. intros x. split; [set_solver |].
    intros (r & v & Hr & _). inversion Hr.
  - rewrite (getitem_Some _ _ _ Hv), HS. cbn. eexists. split; [reflexivity |].
    intros x. destruct (truthy v) eqn:Ht.
    + rewrite elem_of_union, elem_of_singleton, Hspec. split.
      * intros [-> | (r' & v' & Hr' & Hrest)].
        -- exists r, v. split; [left |]. auto.
        -- exists r', v'. split; [right; exact Hr' | exact Hrest].
      * intros (r' & v' & Hr' & Hv' & Ht' & ->).
        apply elem_of_cons in Hr' as [-> | Hr'].
        -- left. congruence.
        -- right. exists r', v'. auto.
    + rewrite Hspec. split.
      * intros (r' & v' & Hr' & Hrest).
        exists r', v'. split; [right; exact Hr' | exact Hrest].
      * intros (r' & v' & Hr' & Hv' & Ht' & ->).
        apply elem_of_cons in Hr' as [-> | Hr'].
        -- congruence.
        -- exists r', v'. auto.
Qed.

(** * The claims *)

(** C1 (as amended): for every monthly data row below the header that is not
    a group header (its Level cell is blank) and has a cell in each located
    column, exactly one Result Entry is emitted for that row if the row's
    email key (the trimmed, lowercased, stringified Email cell, or the empty
    string for a falsy cell) is in the roster email set or its lowercased
    derived name is in the roster name set, and none otherwise; membership
    in either set alone is enough. *)
Theorem entry_iff_match_on_plain_row
    (ix : columns) (E N : gset string) (st : value * list entry)
    (pre post : list row) (r : row) (cur : value) (res : list entry) :
  filter_rows ix E N st pre = Ok (cur, res) →
  wide ix r →
  blank_level ix r →
  ∃ emitted,
    filter_rows ix E N st (pre ++ r :: post) =
    filter_rows ix E N (cur, (res ++ emitted)%list) post
    ∧ (email_key (cell r (idx_email ix)) ∈ E
       ∨ name_key (empinfo_of (cell r (idx_empinfo ix))) ∈ N →
       emitted = [entry_of ix cur r])
    ∧ (¬ (email_key (cell r (idx_email ix)) ∈ E
          ∨ name_key (empinfo_of (cell r (idx_empinfo ix))) ∈ N) →
       emitted = []).
Proof.
  intros Hpre Hwide (lvl & Hlvl & Hblank).
  rewrite filter_rows_app, Hpre. cbn [mbind outcome_bind filter_rows].
  rewrite (filter_row_wide _ _ _ _ _ _ Hwide).
  assert (cell r (idx_level ix) = lvl) as Hcell
    by (unfold cell; rewrite Hlvl; done).
  unfold selected. rewrite !Hcell, Hblank. eexists. split; [reflexivity |].
  cbn [negb andb]. unfold matches.
  split.
  - intros [He | Hn].
    + rewrite (bool_decide_eq_true_2 _ He). reflexivity.
    + rewrite (bool_decide_eq_true_2 _ Hn), orb_true_r. reflexivity.
  - intros Hno.
    rewrite !bool_decide_eq_false_2; [reflexivity | tauto | tauto].
Qed.

(** The rows below a "Team A" group header: Jane's row matches by email. *)
Lemma entry_iff_match_on_plain_row_witness :
  ∃ emitted,
    filter_rows Sample.ix Sample.emails ∅ (VNone, [])
      ([Sample.team_a] ++ Sample.jane :: [Sample.bob]) =
    filter_rows Sample.ix Sample.emails ∅
      (VStr "Team A", ([] ++ emitted)%list) [Sample.bob]
    ∧ (email_key (cell Sample.jane (idx_email Sample.ix)) ∈ Sample.emails
       ∨ name_key (empinfo_of (cell Sample.jane (idx_empinfo Sample.ix))) ∈
         (∅ : gset string) →
       emitted = [entry_of Sample.ix (VStr "Team A") Sample.jane])
    ∧ (¬ (email_key (cell Sample.jane (idx_email Sample.ix)) ∈ Sample.emails
          ∨ name_key (empinfo_of (cell Sample.jane (idx_empinfo Sample.ix))) ∈
            (∅ : gset string)) →
       emitted = []).
Proof.
  apply (entry_iff_match_on_plain_row Sample.ix Sample.emails ∅ (VNone, [])
           [Sample.team_a] [Sample.bob] Sample.jane (VStr "Team A") []).
  - reflexivity.
  - repeat split; eexists; reflexivity.
  - exists (VStr ""). split; reflexivity.
Defined.

(** C1, as stated, fails on a group-header row: the row matches the roster by
    email, and no entry is emitted for it. *)
Lemma matching_group_header_not_emitted :
  roster_sets Sample.roster = Ok (Sample.emails, ∅)
  ∧ email_key (cell Sample.flat_jane (idx_email Sample.ix)) ∈ Sample.emails
  ∧ upload [Sample.header; Sample.flat_jane] Sample.roster = Ok [].
Proof.
  split; [vm_compute; reflexivity |].
  split; [| vm_compute; reflexivity].
  apply elem_of_singleton. vm_compute. reflexivity.
Qed.

(** On a sheet whose rows above the header are all read and passed over,
    the locator returns the first qualifying row with its trimmed values. *)
Lemma detect_header_first (pre post : list row) (r : row)
    (vals : list string) :
  Forall (passed_over is_monthly_header) pre →
  row_vals r = Ok vals → is_monthly_header vals = true →
  detect_header (pre ++ r :: post) = Ok (length pre, vals).
Proof.
  intros Hpre Hr Hacc. unfold detect_header.
  rewrite (scan_header_found _ pre post r vals 0 Hpre Hr Hacc). reflexivity.
Qed.

(** On a sheet whose rows are all read and passed over, the locator answers
    400. *)
Lemma detect_header_not_found (rows : list row) :
  Forall (passed_over is_monthly_header) rows →
  detect_header rows = Status400 HeaderNotFound.
Proof.
  intros Hrows. unfold detect_header.
  rewrite (scan_header_none _ rows 0 Hrows). reflexivity.
Qed.

(** C2 (the code departs from it): a row that holds a number and lies above
    the header makes the locator raise [AttributeError], where the claim
    has it return the index of the header row below; and on a sheet made of
    that row alone, where no row qualifies, the request ends in an
    exception (status 500) and not in [HeaderNotFound] (status 400). *)
Theorem number_above_header_raises :
  detect_header [Sample.header] = Ok (0, ["Level"; "Emp ID - Name";
                                          "Email ID"; "Sum of Missing Time"])
  ∧ is_monthly_header (map (λ v, Py.strip (str v)) Sample.number_row) = false
  ∧ detect_header [Sample.number_row; Sample.header] = Raised AttributeError
  ∧ detect_header [Sample.number_row] = Raised AttributeError
  ∧ status (upload [Sample.number_row] Sample.roster) = 500.
Proof. repeat split; vm_compute; reflexivity. Qed.

(** Rows that are not group headers keep the level and emit the entries of
    those among them that pass the match filter, each with that level. *)
Lemma filter_rows_plain (ix : columns) (E N : gset string) (cur : value)
    (res : list entry) (rows : list row) :
  Forall (wide ix) rows → Forall (blank_level ix) rows →
  filter_rows ix E N (cur, res) rows =
  Ok (cur, (res ++ map (entry_of ix cur)
                     (List.filter (selected ix E N) rows))%list).
Proof.
  intros Hwide. revert res.
  induction Hwide as [| r rows Hr _ IH]; intros res Hblank.
  - cbn. rewrite app_nil_r. reflexivity.
  - apply Forall_cons in Hblank as [(lvl & Hlvl & Hl) Hblank].
    cbn [filter_rows]. rewrite (filter_row_wide _ _ _ _ _ _ Hr).
    assert (cell r (idx_level ix) = lvl) as Hcell
      by (unfold cell; rewrite Hlvl; done).
    rewrite Hcell, Hl. cbn [mbind outcome_bind List.filter].
    rewrite (IH _ Hblank). destruct (selected ix E N r); cbn [map].
    + rewrite <- app_assoc. reflexivity.
    + rewrite app_nil_r. reflexivity.
Qed.

(** A group header after [pre], followed by rows that are not group
    headers. *)
Lemma filter_rows_group (ix : columns) (E N : gset string)
    (st : value * list entry) (pre rest : list row) (r : row)
    (cur lvl : value) (res : list entry) :
  filter_rows ix E N st pre = Ok (cur, res) →
  r !! idx_level ix = Some lvl → is_group_header lvl = true →
  Forall (wide ix) rest → Forall (blank_level ix) rest →
  filter_rows ix E N st (pre ++ r :: rest) =
  Ok (lvl, (res ++ map (entry_of ix lvl)
                     (List.filter (selected ix E N) rest))%list).
Proof.
  intros Hpre Hlvl Hhead Hwide Hblank.
  rewrite filter_rows_app, Hpre. cbn [mbind outcome_bind filter_rows].
  unfold filter_row at 1. rewrite (getitem_Some _ _ _ Hlvl).
  cbn [mbind outcome_bind]. rewrite Hhead. cbn [mbind outcome_bind].
  apply filter_rows_plain; assumption.
Qed.

(** C3: a data row whose Level cell is non-empty after trimming emits no
    entry and sets the carried level to the raw cell: whatever came before
    it, the loop over that row and the rows below it that are not group
    headers ends with that level and has appended exactly the entries of
    the matching rows below it, each carrying that level.  In [upload] the
    level starts undefined: on a sheet whose data rows are some rows before
    any group header, a first group header with its rows, and a second group
    header with its rows, the matching rows of the first part are rendered
    with Level [None], those of the second with the first header's raw
    Level cell, those of the third with the second header's, in that
    order, and the two group-header rows are not rendered. *)
Theorem level_carried_forward (ix : columns) (E N : gset string) :
  (∀ st pre r rest cur res lvl,
     filter_rows ix E N st pre = Ok (cur, res) →
     r !! idx_level ix = Some lvl → is_group_header lvl = true →
     Forall (wide ix) rest → Forall (blank_level ix) rest →
     filter_rows ix E N st (pre ++ r :: rest) =
     Ok (lvl, (res ++ map (entry_of ix lvl)
                        (List.filter (selected ix E N) rest))%list))
  ∧ (∀ all_rows mgr_rows i headers rows0 r1 rest1 r2 rest2 lvl1 lvl2,
       detect_header all_rows = Ok (i, headers) →
       locate_columns headers = Ok ix →
       roster_sets mgr_rows = Ok (E, N) →
       drop (S i) all_rows = (rows0 ++ r1 :: rest1 ++ r2 :: rest2)%list →
       Forall (wide ix) rows0 → Forall (blank_level ix) rows0 →
       r1 !! idx_level ix = Some lvl1 → is_group_header lvl1 = true →
       Forall (wide ix) rest1 → Forall (blank_level ix) rest1 →
       r2 !! idx_level ix = Some lvl2 → is_group_header lvl2 = true →
       Forall (wide ix) rest2 → Forall (blank_level ix) rest2 →
       upload all_rows mgr_rows =
       Ok (map (entry_of ix VNone) (List.filter (selected ix E N) rows0)
           ++ map (entry_of ix lvl1) (List.filter (selected ix E N) rest1)
           ++ map (entry_of ix lvl2) (List.filter (selected ix E N) rest2))%list).
Proof.
  split; [intros; apply (filter_rows_group ix E N st pre rest r cur); assumption |].
  intros all_rows mgr_rows i headers rows0 r1 rest1 r2 rest2 lvl1 lvl2
    Hdet Hix Hsets Hdata Hw0 Hb0 Hl1 Hh1 Hw1 Hb1 Hl2 Hh2 Hw2 Hb2.
  rewrite (upload_stages _ _ _ _ _ _ _ Hdet Hix Hsets), Hdata.
  pose proof (filter_rows_plain ix E N VNone [] rows0 Hw0 Hb0) as H0.
  pose proof (filter_rows_group ix E N (VNone, []) rows0 rest1 r1 _ _ _
                H0 Hl1 Hh1 Hw1 Hb1) as H1.
  replace (rows0 ++ r1 :: rest1 ++ r2 :: rest2)%list
    with ((rows0 ++ r1 :: rest1) ++ r2 :: rest2)%list
    by (rewrite <- app_assoc; reflexivity).
  rewrite (filter_rows_group ix E N (VNone, []) (rows0 ++ r1 :: rest1) rest2 r2
             _ _ _ H1 Hl2 Hh2 Hw2 Hb2).
  cbn. rewrite <- app_assoc. reflexivity.
Qed.

(** Jane before any group header, under "Team A" and under "Team B", Bob
    (in no manager list) in between. *)
Lemma level_carried_forward_witness :
  upload [Sample.header; Sample.jane; Sample.bob; Sample.team_a; Sample.bob;
          Sample.jane; [VStr " Team B "; VNone; VNone; VNone]; Sample.jane;
          Sample.jane] Sample.roster =
  Ok [Entry VNone "Jane" (VStr "a@x.com") (VInt 5);
      Entry (VStr "Team A") "Jane" (VStr "a@x.com") (VInt 5);
      Entry (VStr " Team B ") "Jane" (VStr "a@x.com") (VInt 5);
      Entry (VStr " Team B ") "Jane" (VStr "a@x.com") (VInt 5)].
Proof.
  etransitivity.
  - apply (proj2 (level_carried_forward Sample.ix Sample.emails ∅)
             [Sample.header; Sample.jane; Sample.bob; Sample.team_a;
              Sample.bob; Sample.jane; [VStr " Team B "; VNone; VNone; VNone];
              Sample.jane; Sample.jane]
             Sample.roster 0
             ["Level"; "Emp ID - Name"; "Email ID"; "Sum of Missing Time"]
             [Sample.jane; Sample.bob] Sample.team_a [Sample.bob; Sample.jane]
             [VStr " Team B "; VNone; VNone; VNone] [Sample.jane; Sample.jane]
             (VStr "Team A") (VStr " Team B ")).
    + vm_compute. reflexivity.
    + vm_compute. reflexivity.
    + vm_compute. reflexivity.
    + reflexivity.
    + repeat constructor; eexists; reflexivity.
    + repeat constructor; eexists; (split; [reflexivity | reflexivity]).
    + reflexivity.
    + reflexivity.
    + repeat constructor; eexists; reflexivity.
    + repeat constructor; eexists; (split; [reflexivity | reflexivity]).
    + reflexivity.
    + reflexivity.
    + repeat constructor; eexists; reflexivity.
    + repeat constructor; eexists; (split; [reflexivity | reflexivity]).
  - vm_compute. reflexivity.
Defined.

(** C4: the name is derived from the EmployeeInfo string by splitting on the
    first hyphen: with a second part the name is that part trimmed, without
    a hyphen it is the whole string trimmed; "12345 - Jane Doe" gives
    "Jane Doe" and "JaneDoe" gives "JaneDoe"; the key that is looked up in
    the roster names is the lowercased name, while the emitted Name keeps
    its case. *)
Theorem name_derivation :
  (∀ a b, Py.contains "-" a = false →
          name_part (a +:+ String "-" b) = Py.strip b)
  ∧ (∀ s, Py.contains "-" s = false → name_part s = Py.strip s)
  ∧ name_part "12345 - Jane Doe" = "Jane Doe"
  ∧ name_part "JaneDoe" = "JaneDoe"
  ∧ (∀ E N raw info,
       matches E N raw info = true ↔
       email_key raw ∈ E ∨ Py.lower (name_part info) ∈ N)
  ∧ (∀ ix E N cur res r,
       wide ix r → selected ix E N r = true →
       ∃ e, filter_row ix E N (cur, res) r = Ok (cur, (res ++ [e])%list)
            ∧ Name e = name_part (empinfo_of (cell r (idx_empinfo ix))))
  ∧ upload [Sample.header; Sample.jane_no_email] Sample.roster_names =
    Ok [Entry VNone "Jane" VNone (VInt 5)].
Proof.
  split; [| split; [| split; [| split; [| split; [| split]]]]].
  - intros a b Ha. unfold name_part. rewrite (split1_first_dash a b Ha).
    reflexivity.
  - intros s Hs. unfold name_part. rewrite (split1_no_dash s Hs). reflexivity.
  - vm_compute. reflexivity.
  - vm_compute. reflexivity.
  - intros E N raw info. unfold matches, name_key.
    rewrite orb_true_iff, !bool_decide_eq_true. reflexivity.
  - intros ix E N cur res r Hwide Hsel.
    rewrite (filter_row_wide _ _ _ _ _ _ Hwide). rewrite Hsel.
    unfold selected in Hsel. apply andb_prop in Hsel as [Hg _].
    apply negb_true_iff in Hg. rewrite Hg.
    eexists. split; reflexivity.
  - vm_compute. reflexivity.
Qed.

(** A name with a second hyphen, a name without one, and the entry of Jane's row. *)
Lemma name_derivation_witness :
  name_part ("12345 " +:+ String "-" " Jane-Ann Doe ") = Py.strip " Jane-Ann Doe "
  ∧ name_part " JaneDoe " = Py.strip " JaneDoe "
  ∧ ∃ e, filter_row Sample.ix Sample.emails ∅ (VNone, []) Sample.jane =
         Ok (VNone, ([] ++ [e])%list)
         ∧ Name e =
           name_part (empinfo_of (cell Sample.jane (idx_empinfo Sample.ix))).
Proof.
  destruct name_derivation as (Hsplit & Hwhole & _ & _ & _ & Hname & _).
  split; [| split].
  - apply (Hsplit "12345 " " Jane-Ann Doe "). reflexivity.
  - apply (Hwhole " JaneDoe "). reflexivity.
  - apply (Hname Sample.ix Sample.emails ∅ VNone [] Sample.jane).
    + repeat split; eexists; reflexivity.
    + vm_compute. reflexivity.
Defined.

(** ** The stages never answer [ColumnNotFound] on their own *)

Lemma bind_Status400 {A B} (m : outcome A) (k : A → outcome B) (e : error) :
  m ≫= k = Status400 e →
  m = Status400 e ∨ ∃ a, m = Ok a ∧ k a = Status400 e.
Proof.
  destruct m as [a | e' | x]; cbn; intros H;
    [right; eauto | left; congruence | discriminate].
Qed.

Lemma getitem_no_400 (r : row) (i : nat) (e : error) :
  getitem r i ≠ Status400 e.
Proof. unfold getitem. destruct (r !! i); discriminate. Qed.

Lemma lookup_set_no_400 (idx : nat) (data : list row) (e : error) :
  lookup_set idx data ≠ Status400 e.
Proof.
  induction data as [| r data IH]; cbn [lookup_set]; [discriminate |].
  intros [H | (v & _ & [H | (S & _ & H)]%bind_Status400)]%bind_Status400.
  - exact (getitem_no_400 _ _ _ H).
  - exact (IH H).
  - discriminate.
Qed.

Lemma filter_row_no_400 (ix : columns) (E N : gset string)
    (st : value * list entry) (r : row) (e : error) :
  filter_row ix E N st r ≠ Status400 e.
Proof.
  destruct st as [cur res]. unfold filter_row.
  destruct (getitem r (idx_level ix)) as [lvl | e' | x] eqn:Hl; cbn;
    [| intros [= ->]; exact (getitem_no_400 _ _ _ Hl) | discriminate].
  destruct (is_group_header lvl); [discriminate |].
  destruct (getitem r (idx_email ix)) as [raw | e' | x] eqn:He; cbn;
    [| intros [= ->]; exact (getitem_no_400 _ _ _ He) | discriminate].
  destruct (getitem r (idx_empinfo ix)) as [c | e' | x] eqn:Hi; cbn;
    [| intros [= ->]; exact (getitem_no_400 _ _ _ Hi) | discriminate].
  destruct (matches _ _ _ _); [| discriminate].
  destruct (getitem r (idx_missing ix)) as [m | e' | x] eqn:Hm; cbn;
    [discriminate | intros [= ->]; exact (getitem_no_400 _ _ _ Hm)
    | discriminate].
Qed.

Lemma filter_rows_no_400 (ix : columns) (E N : gset string)
    (st : value * list entry) (data : list row) (e : error) :
  filter_rows ix E N st data ≠ Status400 e.
Proof.
  revert st. induction data as [| r data IH]; intros st; cbn [filter_rows];
    [discriminate |].
  intros [H | (st' & _ & H)]%bind_Status400.
  - exact (filter_row_no_400 _ _ _ _ _ _ H).
  - exact (IH _ H).
Qed.

Lemma roster_sets_400 (mgr_rows : list row) (e : error) :
  roster_sets mgr_rows = Status400 e → e = RosterHeaderNotFound.
Proof.
  unfold roster_sets, detect_roster_header.
  destruct (scan_header is_roster_header 0 mgr_rows) as [[[i hdr2] |] | e' | x]
    eqn:Hscan; cbn; [| congruence | | discriminate].
  - destruct (first_index is_email hdr2); cbn; [| discriminate].
    intros [H | (S & _ & H)]%bind_Status400;
      [exact (False_ind _ (lookup_set_no_400 _ _ _ H)) |].
    apply bind_Status400 in H as [H | (S' & _ & H)]; [| discriminate].
    destruct (first_index is_name_not_email hdr2); [| discriminate].
    exact (False_ind _ (lookup_set_no_400 _ _ _ H)).
  - intros [= ->]. exact (False_ind _ (scan_header_no_400 _ _ _ _ Hscan)).
Qed.

(** The header row the locator returns satisfies the four detectors. *)
Lemma detect_header_accepts (all_rows : list row) (i : nat)
    (headers : list string) :
  detect_header all_rows = Ok (i, headers) → is_monthly_header headers = true.
Proof.
  unfold detect_header.
  destruct (scan_header is_monthly_header 0 all_rows) as [[[k vals] |] | |]
    eqn:Hscan; cbn; try discriminate.
  intros [= -> ->].
  apply scan_header_Some in Hscan as (_ & _ & _ & _ & _ & _ & _ & Hacc).
  exact Hacc.
Qed.

Lemma detect_header_400 (all_rows : list row) (e : error) :
  detect_header all_rows = Status400 e → e = HeaderNotFound.
Proof.
  unfold detect_header.
  destruct (scan_header is_monthly_header 0 all_rows) as [[[k vals] |] | e' | x]
    eqn:Hscan; cbn; try discriminate; [congruence |].
  intros [= ->]. exact (False_ind _ (scan_header_no_400 _ _ _ _ Hscan)).
Qed.

(** A row that passed the header test has a column for each field. *)
Lemma locate_columns_accepts (headers : list string) :
  is_monthly_header headers = true →
  ∃ ix, locate_columns headers = Ok ix
        ∧ first_index is_level headers = Some (idx_level ix)
        ∧ first_index is_empname headers = Some (idx_empinfo ix)
        ∧ first_index is_email headers = Some (idx_email ix)
        ∧ first_index is_missing headers = Some (idx_missing ix).
Proof.
  unfold is_monthly_header, locate_columns.
  intros [[[Hl He]%andb_prop Hm]%andb_prop Hs]%andb_prop.
  destruct (first_index_is_Some _ _ Hl) as [l ->].
  destruct (first_index_is_Some _ _ He) as [e ->].
  destruct (first_index_is_Some _ _ Hm) as [m ->].
  destruct (first_index_is_Some _ _ Hs) as [s ->].
  eexists. repeat split.
Qed.

(** C5 (as amended): below a manager-list header [hdr2], the email column
    is the leftmost header cell containing "email", the name column is the
    leftmost header cell containing "name" but not "email" (none if there is
    no such cell); over the rows below the header, which reach across the
    header's columns, the non-empty keys of the email set are exactly the
    trimmed, lowercased, stringified values of the truthy cells of the
    email column (a cell holding zero or [False] is dropped like an empty
    one), the name set likewise for the name column, and the name set is
    empty when there is no name column.  Whether the empty key is in a set
    is not stated here. *)
Theorem roster_lookup_sets (pre post : list row) (r : row)
    (hdr2 : list string) :
  Forall (passed_over is_roster_header) pre →
  row_vals r = Ok hdr2 →
  is_roster_header hdr2 = true →
  Forall (λ r' : row, (length hdr2 ≤ length r')%nat) post →
  ∃ je E N,
    leftmost is_email hdr2 je
    ∧ roster_sets (pre ++ r :: post) = Ok (E, N)
    ∧ (∀ x, x ≠ "" →
            (x ∈ E ↔
             ∃ r' v, r' ∈ post ∧ r' !! je = Some v
                     ∧ truthy v = true ∧ x = Py.lower (Py.strip (str v))))
    ∧ match first_index is_name_not_email hdr2 with
      | Some jn =>
          leftmost is_name_not_email hdr2 jn
          ∧ ∀ x, x ≠ "" →
                 (x ∈ N ↔
                  ∃ r' v, r' ∈ post ∧ r' !! jn = Some v
                          ∧ truthy v = true
                          ∧ x = Py.lower (Py.strip (str v)))
      | None => N = ∅
      end.
Proof.
  intros Hpre Hr Hacc Hpost.
  assert (∀ j, j < length hdr2 → Forall (λ r', is_Some (r' !! j)) post)
    as Hcol.
  { intros j Hj. eapply Forall_impl; [exact Hpost |]. cbn. intros r' Hr'.
    apply lookup_lt_is_Some. lia. }
  destruct (first_index_is_Some _ _ Hacc) as [je Hje].
  destruct (lookup_set_spec je post (Hcol je (first_index_lt _ _ _ Hje)))
    as (E & HE & HEspec).
  assert (drop (S (length pre)) (pre ++ r :: post) = post) as Hdrop.
  { rewrite cons_middle, app_assoc.
    replace (S (length pre)) with (length (pre ++ [r])%list)
      by (rewrite length_app; cbn; lia).
    apply drop_app_length. }
  unfold normalize in HEspec.
  unfold roster_sets, detect_roster_header.
  rewrite (scan_header_found _ pre post r hdr2 0 Hpre Hr Hacc).
  cbn [mbind outcome_bind Nat.add]. rewrite Hdrop, Hje.
  cbn [mbind outcome_bind]. rewrite HE. cbn [mbind outcome_bind].
  destruct (first_index is_name_not_email hdr2) as [jn |] eqn:Hjn.
  - destruct (lookup_set_spec jn post (Hcol jn (first_index_lt _ _ _ Hjn)))
      as (N & HN & HNspec).
    unfold normalize in HNspec.
    rewrite HN. cbn [mbind outcome_bind]. exists je, E, N.
    split; [apply first_index_Some, Hje |]. split; [reflexivity |].
    split; [intros x _; apply HEspec |].
    split; [apply first_index_Some, Hjn | intros x _; apply HNspec].
  - cbn [mbind outcome_bind]. exists je, E, ∅.
    split; [apply first_index_Some, Hje |]. split; [reflexivity |].
    split; [intros x _; apply HEspec | reflexivity].
Qed.

(** A manager list with a title row and a name column: the two emails and
    the one name are kept lowercase and trimmed, the zero is dropped. *)
Lemma roster_lookup_sets_witness :
  roster_sets ([[VStr "Managers"; VNone]]
               ++ [VStr "Manager Name"; VStr " Email "]
               :: [[VStr " JANE "; VStr "Z@x.com"];
                   [VInt 0; VStr "b@X.com "]]) =
  Ok ({["z@x.com"; "b@x.com"]}, {["jane"]})
  ∧ ∃ je E N,
      leftmost is_email ["Manager Name"; "Email"] je
      ∧ roster_sets ([[VStr "Managers"; VNone]]
                     ++ [VStr "Manager Name"; VStr " Email "]
                     :: [[VStr " JANE "; VStr "Z@x.com"];
                         [VInt 0; VStr "b@X.com "]]) = Ok (E, N)
      ∧ (∀ x, x ≠ "" →
              (x ∈ E ↔
               ∃ r' v,
                 r' ∈ [[VStr " JANE "; VStr "Z@x.com"];
                       [VInt 0; VStr "b@X.com "]]
                 ∧ r' !! je = Some v ∧ truthy v = true
                 ∧ x = Py.lower (Py.strip (str v))))
      ∧ match first_index is_name_not_email ["Manager Name"; "Email"] with
        | Some jn =>
            leftmost is_name_not_email ["Manager Name"; "Email"] jn
            ∧ ∀ x, x ≠ "" →
                   (x ∈ N ↔
                    ∃ r' v,
                      r' ∈ [[VStr " JANE "; VStr "Z@x.com"];
                            [VInt 0; VStr "b@X.com "]]
                      ∧ r' !! jn = Some v ∧ truthy v = true
                      ∧ x = Py.lower (Py.strip (str v)))
        | None => N = ∅
        end.
Proof.
  split; [vm_compute; reflexivity |].
  apply (roster_lookup_sets [[VStr "Managers"; VNone]]
           [[VStr " JANE "; VStr "Z@x.com"]; [VInt 0; VStr "b@X.com "]]
           [VStr "Manager Name"; VStr " Email "] ["Manager Name"; "Email"]).
  - repeat constructor. exists ["Managers"; ""]. split; reflexivity.
  - reflexivity.
  - reflexivity.
  - repeat constructor.
Defined.

(** C5, as stated, fails on a zero and on [False]: the cells are not empty,
    their trimmed, lowercased, stringified values are "0" and "false", and
    neither is in a lookup set. *)
Lemma zero_and_false_are_dropped :
  roster_sets [[VStr "Name"; VStr "Email"]; [VBool false; VInt 0]] =
  Ok (∅, ∅)
  ∧ Py.lower (Py.strip (str (VInt 0))) = "0"
  ∧ Py.lower (Py.strip (str (VBool false))) = "false".
Proof. repeat split; vm_compute; reflexivity. Qed.

(** C6: a header row that satisfied the four detectors resolves each field
    to the leftmost column whose cell satisfies the field's detector, so
    that [upload] never answers [ColumnNotFound]. *)
Theorem columns_always_resolve (all_rows : list row) :
  (∀ i headers,
     detect_header all_rows = Ok (i, headers) →
     ∃ ix, locate_columns headers = Ok ix
           ∧ leftmost is_level headers (idx_level ix)
           ∧ leftmost is_empname headers (idx_empinfo ix)
           ∧ leftmost is_email headers (idx_email ix)
           ∧ leftmost is_missing headers (idx_missing ix))
  ∧ (∀ mgr_rows e,
       upload all_rows mgr_rows = Status400 e →
       e = HeaderNotFound ∨ e = RosterHeaderNotFound).
Proof.
  split.
  - intros i headers Hdet.
    destruct (locate_columns_accepts headers (detect_header_accepts _ _ _ Hdet))
      as (ix & Hix & Hl & He & Hm & Hs).
    exists ix. rewrite <- !first_index_Some. auto.
  - intros mgr_rows e. unfold upload.
    intros [H | ([i headers] & Hdet & H)]%bind_Status400;
      [left; exact (detect_header_400 _ _ H) |].
    destruct (locate_columns_accepts headers (detect_header_accepts _ _ _ Hdet))
      as (ix & Hix & _).
    rewrite Hix in H. cbn [mbind outcome_bind] in H.
    apply bind_Status400 in H as [H | ([E N] & _ & H)];
      [right; exact (roster_sets_400 _ _ H) |].
    apply bind_Status400 in H as [H | ([cur res] & _ & H)]; [| discriminate].
    exact (False_ind _ (filter_rows_no_400 _ _ _ _ _ _ H)).
Qed.

(** A header row in which one cell serves two fields. *)
Lemma columns_always_resolve_witness :
  ∃ ix, locate_columns ["Email ID"; "Level / Emp Name"; "Sum Missing Time"] =
        Ok ix
        ∧ leftmost is_level
            ["Email ID"; "Level / Emp Name"; "Sum Missing Time"] (idx_level ix)
        ∧ leftmost is_empname
            ["Email ID"; "Level / Emp Name"; "Sum Missing Time"] (idx_empinfo ix)
        ∧ leftmost is_email
            ["Email ID"; "Level / Emp Name"; "Sum Missing Time"] (idx_email ix)
        ∧ leftmost is_missing
            ["Email ID"; "Level / Emp Name"; "Sum Missing Time"] (idx_missing ix).
Proof.
  apply (proj1 (columns_always_resolve
                  [[VStr "Report"; VNone; VNone];
                   [VStr "Email ID"; VStr " Level / Emp Name";
                    VStr "Sum Missing Time "]]) 1).
  vm_compute. reflexivity.
Defined.

(** On a manager list whose rows above the header are all read and passed
    over, the header is the first row with a cell containing "email"; and
    when every row is read and passed over, the request answers 400. *)
Lemma detect_roster_header_first (pre post : list row) (r : row)
    (vals : list string) :
  Forall (passed_over is_roster_header) pre →
  row_vals r = Ok vals → is_roster_header vals = true →
  detect_roster_header (pre ++ r :: post) = Ok (length pre, vals).
Proof.
  intros Hpre Hr Hacc. unfold detect_roster_header.
  rewrite (scan_header_found _ pre post r vals 0 Hpre Hr Hacc). reflexivity.
Qed.

Lemma detect_roster_header_not_found (mgr_rows : list row) :
  Forall (passed_over is_roster_header) mgr_rows →
  detect_roster_header mgr_rows = Status400 RosterHeaderNotFound.
Proof.
  intros Hrows. unfold detect_roster_header.
  rewrite (scan_header_none _ mgr_rows 0 Hrows). reflexivity.
Qed.

(** C7 (the code departs from it): in a manager list whose header says
    "Mail", no cell contains "email", and the row of numeric employee ids
    below the header makes the scan raise [AttributeError]: the request ends
    in an exception (status 500), where the claim has it fail with
    [RosterHeaderNotFound] (status 400). *)
Theorem roster_without_email_raises :
  forallb (forallb (λ v, negb (is_email (Py.strip (str v)))))
    Sample.roster_no_email = true
  ∧ detect_roster_header Sample.roster_no_email = Raised AttributeError
  ∧ upload [Sample.header; Sample.jane] Sample.roster_no_email =
    Raised AttributeError
  ∧ status (upload [Sample.header; Sample.jane] Sample.roster_no_email) = 500
  ∧ detect_roster_header [[VStr "Emp ID"; VStr "Name"; VStr "Mail"]] =
    Status400 RosterHeaderNotFound.
Proof. repeat split; vm_compute; reflexivity. Qed.

(** A row without Email and without EmployeeInfo is read without an
    exception, and is not matched as long as the empty string is in
    neither lookup set. *)
Lemma absent_cells_no_match (E N : gset string) :
  "" ∉ E → "" ∉ N → matches E N VNone (empinfo_of VNone) = false.
Proof.
  intros HE HN. unfold matches.
  change (email_key VNone) with "".
  change (name_key (empinfo_of VNone)) with "".
  rewrite !bool_decide_eq_false_2; auto.
Qed.

(** C8 (the code departs from it): a manager list with a cell that holds a
    single space puts the empty string into the email set; a monthly row
    without Email then matches through its empty email key, although its
    name is in no roster set, and an entry is emitted for it. *)
Theorem absent_email_matches_blank_roster_cell :
  roster_sets Sample.roster_blank = Ok ({[""]}, ∅)
  ∧ email_key (cell Sample.jane_no_email (idx_email Sample.ix)) = ""
  ∧ name_key (empinfo_of (cell Sample.jane_no_email (idx_empinfo Sample.ix)))
    = "jane"
  ∧ upload [Sample.header; Sample.jane_no_email] Sample.roster_blank =
    Ok [Entry VNone "Jane" VNone (VInt 5)].
Proof. repeat split; vm_compute; reflexivity. Qed.

(** C9: the rendered list is the list of data rows that pass the match
    filter, in the order of the sheet, each mapped to its entry with the
    level in force at that row; nothing is reordered, merged or dropped. *)
Theorem entries_in_row_order (all_rows mgr_rows : list row) (i : nat)
    (headers : list string) (ix : columns) (E N : gset string) :
  detect_header all_rows = Ok (i, headers) →
  locate_columns headers = Ok ix →
  roster_sets mgr_rows = Ok (E, N) →
  Forall (wide ix) (drop (S i) all_rows) →
  upload all_rows mgr_rows =
  Ok (expected_entries ix E N VNone (drop (S i) all_rows)).
Proof.
  intros Hh Hc Hr Hwide. rewrite (upload_stages _ _ _ _ _ _ _ Hh Hc Hr).
  destruct (filter_rows_wide ix E N VNone [] _ Hwide) as [cur' ->].
  reflexivity.
Qed.

(** An unmatched row is dropped and the three matching rows stay in order, duplicates included. *)
Lemma entries_in_row_order_witness :
  upload [Sample.header; Sample.bob; Sample.jane; Sample.team_a;
          Sample.jane; Sample.flat_jane; Sample.jane]
    Sample.roster =
  Ok [Entry VNone "Jane" (VStr "a@x.com") (VInt 5);
      Entry (VStr "Team A") "Jane" (VStr "a@x.com") (VInt 5);
      Entry (VStr "Team A") "Jane" (VStr "a@x.com") (VInt 5)].
Proof.
  etransitivity.
  - apply (entries_in_row_order
             [Sample.header; Sample.bob; Sample.jane; Sample.team_a;
              Sample.jane; Sample.flat_jane; Sample.jane]
             Sample.roster 0
             ["Level"; "Emp ID - Name"; "Email ID"; "Sum of Missing Time"]
             Sample.ix Sample.emails ∅).
    + vm_compute. reflexivity.
    + vm_compute. reflexivity.
    + vm_compute. reflexivity.
    + repeat constructor; eexists; reflexivity.
  - vm_compute. reflexivity.
Defined.

(** C10 (as amended): header detection, on the monthly sheet and on the
    manager list, raises an exception exactly when the scan reaches a row
    holding a truthy cell that is not a string (a non-zero number, [True]),
    every row above it having been read and passed over; the exception is
    [AttributeError], it is not caught, and the request ends with status 500
    instead of a 400 answer.  Falsy cells ([None], the empty string, zero,
    [False]) are replaced by the empty string and do not raise; when the
    scan does not raise it returns a header or the 400 answer. *)
Theorem header_scan_raises_iff (all_rows mgr_rows : list row) :
  (detect_header all_rows = Raised AttributeError ↔
   trips is_monthly_header all_rows)
  ∧ (detect_roster_header mgr_rows = Raised AttributeError ↔
     trips is_roster_header mgr_rows)
  ∧ (∀ x, detect_header all_rows = Raised x
          ∨ detect_roster_header mgr_rows = Raised x → x = AttributeError)
  ∧ (trips is_monthly_header all_rows →
     upload all_rows mgr_rows = Raised AttributeError
     ∧ status (upload all_rows mgr_rows) = 500)
  ∧ (∀ hit, detect_header all_rows = Ok hit →
            trips is_roster_header mgr_rows →
            upload all_rows mgr_rows = Raised AttributeError
            ∧ status (upload all_rows mgr_rows) = 500)
  ∧ (¬ trips is_monthly_header all_rows →
     (∃ hit, detect_header all_rows = Ok hit)
     ∨ detect_header all_rows = Status400 HeaderNotFound)
  ∧ (¬ trips is_roster_header mgr_rows →
     (∃ hit, detect_roster_header mgr_rows = Ok hit)
     ∨ detect_roster_header mgr_rows = Status400 RosterHeaderNotFound).
Proof.
  assert (∀ accept rows (err : error),
            (scan_header accept 0 rows ≫=
               (λ found, match found with
                         | Some hit => Ok hit
                         | None => Status400 err
                         end)) = Raised AttributeError ↔
            trips accept rows) as Hiff.
  { intros accept rows err. rewrite (scan_header_trips accept rows 0).
    destruct (scan_header accept 0 rows) as [[hit |] | |]; cbn;
      split; congruence. }
  assert (∀ accept rows (err : error) x,
            (scan_header accept 0 rows ≫=
               (λ found, match found with
                         | Some hit => Ok hit
                         | None => Status400 err
                         end)) = Raised x → x = AttributeError) as Hexn.
  { intros accept rows err x.
    destruct (scan_header accept 0 rows) as [[hit |] | |] eqn:Hscan; cbn;
      try discriminate.
    intros [= <-]. exact (scan_header_exn _ _ _ _ Hscan). }
  assert (∀ accept rows (err : error),
            ¬ trips accept rows →
            (∃ hit, (scan_header accept 0 rows ≫=
                       (λ found, match found with
                                 | Some hit => Ok hit
                                 | None => Status400 err
                                 end)) = Ok hit)
            ∨ (scan_header accept 0 rows ≫=
                 (λ found, match found with
                           | Some hit => Ok hit
                           | None => Status400 err
                           end)) = Status400 err) as Htotal.
  { intros accept rows err Hno.
    destruct (scan_header accept 0 rows) as [[hit |] | e | x] eqn:Hscan; cbn.
    - left. eauto.
    - right. reflexivity.
    - destruct (scan_header_no_400 _ _ _ _ Hscan).
    - rewrite (scan_header_exn _ _ _ _ Hscan) in Hscan.
      destruct Hno. apply (scan_header_trips accept rows 0), Hscan. }
  split; [apply Hiff |]. split; [apply Hiff |].
  split; [intros x [H | H]; exact (Hexn _ _ _ _ H) |].
  split; [| split; [| split; [apply Htotal | apply Htotal]]].
  - intros Htrip. apply (Hiff _ _ HeaderNotFound) in Htrip. unfold upload.
    fold (detect_header all_rows) in Htrip. rewrite Htrip. split; reflexivity.
  - intros [i headers] Hdet Htrip.
    destruct (locate_columns_accepts headers (detect_header_accepts _ _ _ Hdet))
      as (ix & Hix & _).
    apply (Hiff _ _ RosterHeaderNotFound) in Htrip.
    fold (detect_roster_header mgr_rows) in Htrip.
    unfold upload, roster_sets. rewrite Hdet. cbn [mbind outcome_bind].
    rewrite Hix. cbn [mbind outcome_bind]. rewrite Htrip. split; reflexivity.
Qed.

(** The scan reads past a zero and raises at [True]. *)
Lemma header_scan_raises_iff_witness :
  upload [Sample.zero_row; [VStr "Report"; VBool true]; Sample.header]
    Sample.roster = Raised AttributeError
  ∧ status (upload [Sample.zero_row; [VStr "Report"; VBool true];
                    Sample.header] Sample.roster) = 500.
Proof.
  apply (header_scan_raises_iff
           [Sample.zero_row; [VStr "Report"; VBool true]; Sample.header]
           Sample.roster).
  exists [Sample.zero_row], [VStr "Report"; VBool true], [Sample.header].
  split; [reflexivity |]. split.
  - repeat constructor. exists [""]. split; reflexivity.
  - right. left. reflexivity.
Defined.

(** C10, as stated, fails on a zero: the cell is numeric, not a string, and
    lies above the header, yet both scans read past it and return the
    header. *)
Lemma zero_above_header_is_read :
  non_string (VInt 0) = true
  ∧ detect_header [Sample.zero_row; Sample.header] =
    Ok (1, ["Level"; "Emp ID - Name"; "Email ID"; "Sum of Missing Time"])
  ∧ detect_roster_header [Sample.zero_row; [VStr "Email"]] = Ok (1, ["Email"])
  ∧ detect_header [[VBool false]] = Status400 HeaderNotFound.
Proof. repeat split; vm_compute; reflexivity. Qed.

(** * Further properties of the code *)

(** ** The checks on the upload *)

Section Extension.

Lemma prefix_char (a c : ascii) (s : string) :
  String.prefix (String a EmptyString) (String c s) = Ascii.eqb c a.
Proof.
  change (String.prefix (String a EmptyString) (String c s))
    with (if ascii_dec a c then String.prefix "" s else false).
  destruct (ascii_dec a c) as [<- | Hne].
  - rewrite Ascii.eqb_refl. destruct s; reflexivity.
  - symmetry. apply Ascii.eqb_neq. congruence.
Qed.

Lemma contains_char_cons (a c : ascii) (s : string) :
  Py.contains (String a EmptyString) (String c s) =
  Ascii.eqb c a || Py.contains (String a EmptyString) s.
Proof. cbn [Py.contains]. rewrite prefix_char. reflexivity. Qed.

Lemma contains_char_app (a : ascii) (s t : string) :
  Py.contains (String a EmptyString) (s +:+ String a t) = true.
Proof.
  induction s as [| c s IH].
  - change ("" +:+ String a t) with (String a t).
    rewrite contains_char_cons, Ascii.eqb_refl. reflexivity.
  - change (String c s +:+ String a t) with (String c (s +:+ String a t)).
    rewrite contains_char_cons, IH. apply orb_true_r.
Qed.

(** A string that holds the separator ends in a last separator followed by
    text without one. *)
Lemma last_char_split (a : ascii) (s : string) :
  Py.contains (String a EmptyString) s = true →
  ∃ stem ext, s = stem +:+ String a ext
              ∧ Py.contains (String a EmptyString) ext = false.
Proof.
  induction s as [| c s IH]; [discriminate |].
  rewrite contains_char_cons.
  destruct (Py.contains (String a EmptyString) s) eqn:Hs.
  - intros _. destruct (IH eq_refl) as (stem & ext & -> & Hext).
    exists (String c stem), ext. split; [reflexivity | exact Hext].
  - rewrite orb_false_r. intros ->%Ascii.eqb_eq.
    exists "", s. split; [reflexivity | exact Hs].
Qed.

Lemma rsplit1_no_sep (a : ascii) (s : string) :
  Py.contains (String a EmptyString) s = false → rsplit1 a s = [s].
Proof.
  induction s as [| c s IH]; [reflexivity |].
  rewrite contains_char_cons. intros [Hc Hs]%orb_false_elim.
  cbn [rsplit1]. rewrite (IH Hs), Hc. reflexivity.
Qed.

Lemma rsplit1_last (a : ascii) (stem ext : string) :
  Py.contains (String a EmptyString) ext = false →
  rsplit1 a (stem +:+ String a ext) = [stem; ext].
Proof.
  intros Hext. induction stem as [| c stem IH].
  - change ("" +:+ String a ext) with (String a ext). cbn [rsplit1].
    rewrite (rsplit1_no_sep a ext Hext), Ascii.eqb_refl. reflexivity.
  - change (String c stem +:+ String a ext)
      with (String c (stem +:+ String a ext)).
    cbn [rsplit1]. rewrite IH. reflexivity.
Qed.

End Extension.

(** X1: [allowed_file] accepts a file name exactly when the text after its
    last dot, lowercased, is "xlsb", "xlsx" or "xls"; a name without a dot
    is refused, only the last extension counts, and the index [1] into the
    split never raises. *)
Theorem allowed_file_last_extension (fname : string) :
  (allowed_file fname = Ok true ↔
   ∃ stem ext, fname = stem +:+ String "." ext
               ∧ Py.contains "." ext = false
               ∧ Py.lower ext ∈ ALLOWED_EXT)
  ∧ (∃ b, allowed_file fname = Ok b)
  ∧ (Py.contains "." fname = false → allowed_file fname = Ok false).
Proof.
  unfold allowed_file. destruct (Py.contains "." fname) eqn:Hdot.
  - destruct (last_char_split "." fname Hdot) as (stem & ext & -> & Hext).
    rewrite (rsplit1_last "." stem ext Hext). cbn.
    split; [| split; [eauto | discriminate]].
    split.
    + intros [= H]. apply bool_decide_eq_true in H. eauto.
    + intros (stem' & ext' & E & Hext' & Hin).
      assert (rsplit1 "." (stem +:+ String "." ext) = [stem'; ext']) as Hr
        by (rewrite E; apply rsplit1_last, Hext').
      rewrite (rsplit1_last "." stem ext Hext) in Hr. injection Hr as -> ->.
      rewrite (bool_decide_eq_true_2 _ Hin). reflexivity.
  - split; [| split; [eauto | reflexivity]].
    split; [discriminate |].
    intros (stem & ext & -> & _). rewrite contains_char_app in Hdot.
    discriminate.
Qed.

(** A double extension and an upper-case extension. *)
Lemma allowed_file_last_extension_witness :
  allowed_file "report.xlsx.txt" = Ok false
  ∧ allowed_file "Roster.v2.XLSX" = Ok true
  ∧ allowed_file "xlsx" = Ok false.
Proof.
  split; [vm_compute; reflexivity |]. split.
  - apply (proj1 (allowed_file_last_extension "Roster.v2.XLSX")).
    exists "Roster.v2", "XLSX". split; [reflexivity |].
    split; [reflexivity |]. vm_compute. set_solver.
  - apply (proj2 (proj2 (allowed_file_last_extension "xlsx"))). reflexivity.
Defined.

Lemma allowed_file_total (fname : string) : ∃ b, allowed_file fname = Ok b.
Proof.
  unfold allowed_file. destruct (Py.contains "." fname) eqn:Hdot; [| eauto].
  destruct (last_char_split "." fname Hdot) as (stem & ext & -> & Hext).
  rewrite (rsplit1_last "." stem ext Hext). cbn. eauto.
Qed.

(** X2: the check of step 1 passes exactly when both uploads are present
    and both file names are allowed; it treats the two fields alike, so the
    two files swapped pass as well; it never raises. *)
Theorem uploads_ok_both (mf lf : option string) :
  (uploads_ok mf lf = Ok true ↔
   ∃ m l, mf = Some m ∧ lf = Some l
          ∧ allowed_file m = Ok true ∧ allowed_file l = Ok true)
  ∧ uploads_ok mf lf = uploads_ok lf mf
  ∧ (∃ b, uploads_ok mf lf = Ok b).
Proof.
  unfold uploads_ok.
  destruct mf as [m |], lf as [l |].
  - destruct (allowed_file_total m) as [bm Hm].
    destruct (allowed_file_total l) as [bl Hl].
    rewrite Hm, Hl. cbn [mbind outcome_bind].
    split; [| split; [destruct bm, bl; reflexivity | destruct bm; eauto]].
    split.
    + destruct bm; [| discriminate]. intros [= ->]. exists m, l. auto.
    + intros (m' & l' & [= <-] & [= <-] & Hm' & Hl').
      rewrite Hm in Hm'. rewrite Hl in Hl'.
      injection Hm' as ->. injection Hl' as ->. reflexivity.
  - destruct (allowed_file_total m) as [bm Hm].
    rewrite Hm. cbn [mbind outcome_bind].
    split; [| split; [destruct bm; reflexivity | destruct bm; eauto]].
    split; [destruct bm; discriminate |].
    intros (m' & l' & _ & H & _). discriminate.
  - destruct (allowed_file_total l) as [bl Hl].
    rewrite Hl. cbn [mbind outcome_bind].
    split; [| split; [destruct bl; reflexivity | eauto]].
    split; [discriminate |]. intros (m' & l' & H & _). discriminate.
  - split; [| split; [reflexivity | eauto]].
    split; [discriminate |]. intros (m' & l' & H & _). discriminate.
Qed.

(** A monthly .xlsx with an .xlsb manager list passes the check. *)
Lemma uploads_ok_both_witness :
  uploads_ok (Some "managers.xlsx") (Some "monthly.XLSB") = Ok true.
Proof.
  apply (proj1 (uploads_ok_both (Some "managers.xlsx") (Some "monthly.XLSB"))).
  exists "managers.xlsx", "monthly.XLSB".
  repeat split; vm_compute; reflexivity.
Defined.

Lemma find_first {A} (p : A → bool) (l : list A) (x : A) :
  List.find p l = Some x ↔
  ∃ pre post, l = (pre ++ x :: post)%list
              ∧ Forall (λ y, p y = false) pre ∧ p x = true.
Proof.
  induction l as [| y l IH]; cbn [List.find].
  - split; [discriminate |]. intros (pre & post & E & _).
    destruct pre; discriminate.
  - destruct (p y) eqn:Hy.
    + split.
      * intros [= <-]. exists [], l. auto.
      * intros (pre & post & E & Hpre & Hx).
        destruct pre as [| y' pre]; injection E as -> E; [reflexivity |].
        apply Forall_cons in Hpre as [Hy' _]. congruence.
    + rewrite IH. split.
      * intros (pre & post & -> & Hpre & Hx).
        exists (y :: pre), post. auto.
      * intros (pre & post & E & Hpre & Hx).
        destruct pre as [| y' pre]; injection E as -> E; [congruence |].
        apply Forall_cons in Hpre as [_ Hpre]. exists pre, post. auto.
Qed.

Lemma find_none {A} (p : A → bool) (l : list A) :
  List.find p l = None ↔ Forall (λ y, p y = false) l.
Proof.
  induction l as [| y l IH]; cbn [List.find]; [split; auto |].
  rewrite Forall_cons. destruct (p y); [| rewrite IH; tauto].
  split; [discriminate | intros [? _]; discriminate].
Qed.

(** X3: the monthly sheet is the first sheet of the workbook, in the
    workbook's order, whose name contains both "missing" and "time" in any
    case; the request is refused exactly when no sheet name does. *)
Theorem choose_sheet_first (sheets : list string) :
  (∀ s, choose_sheet sheets = Some s ↔
        ∃ pre post,
          sheets = (pre ++ s :: post)%list
          ∧ Forall (λ n, is_missing_time_sheet n = false) pre
          ∧ is_missing_time_sheet s = true)
  ∧ (choose_sheet sheets = None ↔
     Forall (λ n, is_missing_time_sheet n = false) sheets).
Proof.
  unfold choose_sheet. split.
  - intros s. rewrite <- find_first.
    destruct (List.find is_missing_time_sheet sheets) as [n |] eqn:Hfind;
      [| split; discriminate].
    destruct (String.eqb_spec n "") as [-> | Hn]; [| reflexivity].
    apply find_first in Hfind as (_ & _ & _ & _ & H). discriminate.
  - rewrite <- find_none.
    destruct (List.find is_missing_time_sheet sheets) as [n |] eqn:Hfind;
      [| tauto].
    destruct (String.eqb_spec n "") as [-> | Hn]; [| split; discriminate].
    apply find_first in Hfind as (_ & _ & _ & _ & H). discriminate.
Qed.

(** Two sheets qualify: the earlier one is taken. *)
Lemma choose_sheet_first_witness :
  choose_sheet ["Summary"; "MISSING TIME Apr"; "Missing Time May"] =
  Some "MISSING TIME Apr".
Proof.
  apply (proj1 (choose_sheet_first
                  ["Summary"; "MISSING TIME Apr"; "Missing Time May"])).
  exists ["Summary"], ["Missing Time May"].
  split; [reflexivity |]. split; [repeat constructor | reflexivity].
Defined.

(** ** The exceptions of the pipeline *)

Lemma bind_Raised {A B} (m : outcome A) (k : A → outcome B) (x : exn) :
  m ≫= k = Raised x → m = Raised x ∨ ∃ a, m = Ok a ∧ k a = Raised x.
Proof.
  destruct m as [a | e | x']; cbn; intros H;
    [right; eauto | discriminate | left; congruence].
Qed.

Lemma bind_Ok {A B} (m : outcome A) (k : A → outcome B) (b : B) :
  m ≫= k = Ok b → ∃ a, m = Ok a ∧ k a = Ok b.
Proof. destruct m as [a | e | x]; cbn; intros H; [eauto | | ]; discriminate. Qed.

Lemma getitem_Raised (r : row) (i : nat) (x : exn) :
  getitem r i = Raised x → x = IndexError.
Proof. unfold getitem. destruct (r !! i); [discriminate | congruence]. Qed.

Lemma lookup_set_Raised (idx : nat) (data : list row) (x : exn) :
  lookup_set idx data = Raised x → x = IndexError.
Proof.
  induction data as [| r data IH]; cbn [lookup_set]; [discriminate |].
  intros [H | (v & _ & [H | (S & _ & H)]%bind_Raised)]%bind_Raised.
  - exact (getitem_Raised _ _ _ H).
  - exact (IH H).
  - discriminate.
Qed.

Lemma filter_row_Raised (ix : columns) (E N : gset string)
    (st : value * list entry) (r : row) (x : exn) :
  filter_row ix E N st r = Raised x → x = IndexError.
Proof.
  destruct st as [cur res]. unfold filter_row.
  intros [H | (lvl & _ & H)]%bind_Raised; [exact (getitem_Raised _ _ _ H) |].
  destruct (is_group_header lvl); [discriminate |].
  apply bind_Raised in H as [H | (raw & _ & H)];
    [exact (getitem_Raised _ _ _ H) |].
  apply bind_Raised in H as [H | (c & _ & H)];
    [exact (getitem_Raised _ _ _ H) |].
  destruct (matches _ _ _ _); [| discriminate].
  apply bind_Raised in H as [H | (m & _ & H)];
    [exact (getitem_Raised _ _ _ H) | discriminate].
Qed.

Lemma filter_rows_Raised (ix : columns) (E N : gset string)
    (st : value * list entry) (data : list row) (x : exn) :
  filter_rows ix E N st data = Raised x → x = IndexError.
Proof.
  revert st. induction data as [| r data IH]; intros st; cbn [filter_rows];
    [discriminate |].
  intros [H | (st' & _ & H)]%bind_Raised.
  - exact (filter_row_Raised _ _ _ _ _ _ H).
  - exact (IH _ H).
Qed.

Lemma detect_roster_header_accepts (mgr_rows : list row) (i : nat)
    (hdr2 : list string) :
  detect_roster_header mgr_rows = Ok (i, hdr2) → is_roster_header hdr2 = true.
Proof.
  unfold detect_roster_header.
  destruct (scan_header is_roster_header 0 mgr_rows) as [[[k vals] |] | |]
    eqn:Hscan; cbn; try discriminate.
  intros [= -> ->].
  apply scan_header_Some in Hscan as (_ & _ & _ & _ & _ & _ & _ & Hacc).
  exact Hacc.
Qed.

Lemma detect_header_Raised (all_rows : list row) (x : exn) :
  detect_header all_rows = Raised x →
  x = AttributeError ∧ trips is_monthly_header all_rows.
Proof.
  unfold detect_header.
  destruct (scan_header is_monthly_header 0 all_rows) as [[hit |] | |]
    eqn:Hscan; cbn; try discriminate.
  intros [= <-]. pose proof (scan_header_exn _ _ _ _ Hscan) as ->.
  split; [reflexivity |]. apply (scan_header_trips _ all_rows 0), Hscan.
Qed.

Lemma detect_roster_header_Raised (mgr_rows : list row) (x : exn) :
  detect_roster_header mgr_rows = Raised x →
  x = AttributeError ∧ trips is_roster_header mgr_rows.
Proof.
  unfold detect_roster_header.
  destruct (scan_header is_roster_header 0 mgr_rows) as [[hit |] | |]
    eqn:Hscan; cbn; try discriminate.
  intros [= <-]. pose proof (scan_header_exn _ _ _ _ Hscan) as ->.
  split; [reflexivity |]. apply (scan_header_trips _ mgr_rows 0), Hscan.
Qed.

Lemma roster_sets_Raised (mgr_rows : list row) (x : exn) :
  roster_sets mgr_rows = Raised x →
  (x = AttributeError ∧ trips is_roster_header mgr_rows) ∨ x = IndexError.
Proof.
  unfold roster_sets.
  intros [H | ([i hdr2] & Hdet & H)]%bind_Raised;
    [left; exact (detect_roster_header_Raised _ _ H) |].
  destruct (first_index_is_Some _ _ (detect_roster_header_accepts _ _ _ Hdet))
    as [je Hje].
  rewrite Hje in H. cbn [mbind outcome_bind] in H. right.
  apply bind_Raised in H as [H | (E & _ & H)];
    [exact (lookup_set_Raised _ _ _ H) |].
  apply bind_Raised in H as [H | (N & _ & H)]; [| discriminate].
  destruct (first_index is_name_not_email hdr2); [| discriminate].
  exact (lookup_set_Raised _ _ _ H).
Qed.

(** X4: an exception leaves [upload] only as [AttributeError], when one of
    the two header scans reaches a truthy non-string cell, or as
    [IndexError]; the [next(...)] without a default that finds the email
    column of the manager list never raises [StopIteration], and numbers in
    the rows below the headers never raise [AttributeError]. *)
Theorem upload_exceptions (all_rows mgr_rows : list row) (x : exn) :
  upload all_rows mgr_rows = Raised x →
  (x = AttributeError
   ∧ (trips is_monthly_header all_rows ∨ trips is_roster_header mgr_rows))
  ∨ x = IndexError.
Proof.
  unfold upload.
  intros [H | ([i headers] & Hdet & H)]%bind_Raised.
  { left. destruct (detect_header_Raised _ _ H). auto. }
  destruct (locate_columns_accepts headers (detect_header_accepts _ _ _ Hdet))
    as (ix & Hix & _).
  rewrite Hix in H. cbn [mbind outcome_bind] in H.
  apply bind_Raised in H as [H | ([E N] & _ & H)].
  { destruct (roster_sets_Raised _ _ H) as [[-> Htrip] | ->]; auto. }
  apply bind_Raised in H as [H | ([cur res] & _ & H)]; [| discriminate].
  right. exact (filter_rows_Raised _ _ _ _ _ _ H).
Qed.

(** A data row shorter than the sheet's header. *)
Lemma upload_exceptions_witness :
  (IndexError = AttributeError
   ∧ (trips is_monthly_header [Sample.header; [VNone; VStr "1 - Jane"]]
      ∨ trips is_roster_header Sample.roster))
  ∨ IndexError = IndexError.
Proof.
  apply (upload_exceptions [Sample.header; [VNone; VStr "1 - Jane"]]
           Sample.roster IndexError).
  vm_compute. reflexivity.
Defined.

(** ** The outcomes of the header scans *)

Section ScanOutcomes.

Variable accept : list string → bool.

Lemma scan_header_Some_iff (rows : list row) (i k : nat) (vals : list string) :
  scan_header accept i rows = Ok (Some (k, vals)) ↔
  ∃ pre r post,
    rows = (pre ++ r :: post)%list ∧ k = i + length pre
    ∧ Forall (passed_over accept) pre
    ∧ row_vals r = Ok vals ∧ accept vals = true.
Proof.
  split; [apply scan_header_Some |].
  intros (pre & r & post & -> & -> & Hpre & Hr & Hacc).
  apply scan_header_found; assumption.
Qed.

Lemma scan_header_None_iff (rows : list row) (i : nat) :
  scan_header accept i rows = Ok None ↔ Forall (passed_over accept) rows.
Proof.
  split; [| apply scan_header_none].
  revert i. induction rows as [| r rows IH]; intros i; cbn [scan_header];
    [constructor |].
  destruct (row_vals r) as [vals | |] eqn:Hv; cbn; try discriminate.
  destruct (accept vals) eqn:Hacc; [discriminate |].
  intros H. constructor; [exists vals; auto | exact (IH _ H)].
Qed.

Lemma scan_header_offset (rows : list row) (k i : nat) :
  scan_header accept (k + i) rows =
  match scan_header accept i rows with
  | Ok (Some (j, vals)) => Ok (Some (k + j, vals))
  | o => o
  end.
Proof.
  revert i. induction rows as [| r rows IH]; intros i; cbn [scan_header];
    [reflexivity |].
  destruct (row_vals r) as [vals | |]; cbn; try reflexivity.
  destruct (accept vals); [reflexivity |].
  rewrite <- IH. f_equal. lia.
Qed.

Lemma scan_header_skip (pre rows : list row) (i : nat) :
  Forall (passed_over accept) pre →
  scan_header accept i (pre ++ rows) = scan_header accept (length pre + i) rows.
Proof.
  intros Hpre. revert i.
  induction Hpre as [| r pre (vals & Hv & Hrej) _ IH]; intros i;
    [reflexivity |].
  cbn [app scan_header length]. rewrite Hv. cbn. rewrite Hrej, IH.
  f_equal. lia.
Qed.

End ScanOutcomes.

Lemma drop_past_prefix {A} (pre rows : list A) (n : nat) :
  drop (length pre + n) (pre ++ rows) = drop n rows.
Proof. induction pre as [| y pre IH]; [reflexivity | exact IH]. Qed.

Lemma detect_header_skip (pre rows : list row) :
  Forall (passed_over is_monthly_header) pre →
  detect_header (pre ++ rows) =
  hit ← detect_header rows; Ok (length pre + hit.1, hit.2).
Proof.
  intros Hpre. unfold detect_header.
  rewrite (scan_header_skip _ pre rows 0 Hpre), scan_header_offset.
  destruct (scan_header is_monthly_header 0 rows) as [[[j vals] |] | |];
    reflexivity.
Qed.

Lemma detect_roster_header_skip (pre rows : list row) :
  Forall (passed_over is_roster_header) pre →
  detect_roster_header (pre ++ rows) =
  hit ← detect_roster_header rows; Ok (length pre + hit.1, hit.2).
Proof.
  intros Hpre. unfold detect_roster_header.
  rewrite (scan_header_skip _ pre rows 0 Hpre), scan_header_offset.
  destruct (scan_header is_roster_header 0 rows) as [[[j vals] |] | |];
    reflexivity.
Qed.

(** X5: each header scan returns row [i] with its trimmed cells exactly
    when row [i] is the first row that passes the header test and every row
    above it was read without an exception; it answers 400 exactly when
    every row of the sheet was read and none passes the test. *)
Theorem header_scan_outcomes (rows : list row) :
  (∀ i headers,
     detect_header rows = Ok (i, headers) ↔
     ∃ pre r post,
       rows = (pre ++ r :: post)%list ∧ i = length pre
       ∧ Forall (passed_over is_monthly_header) pre
       ∧ row_vals r = Ok headers ∧ is_monthly_header headers = true)
  ∧ (∀ e, detect_header rows = Status400 e ↔
          e = HeaderNotFound ∧ Forall (passed_over is_monthly_header) rows)
  ∧ (∀ i hdr2,
       detect_roster_header rows = Ok (i, hdr2) ↔
       ∃ pre r post,
         rows = (pre ++ r :: post)%list ∧ i = length pre
         ∧ Forall (passed_over is_roster_header) pre
         ∧ row_vals r = Ok hdr2 ∧ is_roster_header hdr2 = true)
  ∧ (∀ e, detect_roster_header rows = Status400 e ↔
          e = RosterHeaderNotFound
          ∧ Forall (passed_over is_roster_header) rows).
Proof.
  assert (∀ accept (err : error) i vals,
            (scan_header accept 0 rows ≫=
               (λ found, match found with
                         | Some hit => Ok hit
                         | None => Status400 err
                         end)) = Ok (i, vals) ↔
            scan_header accept 0 rows = Ok (Some (i, vals))) as Hok.
  { intros accept err i vals.
    destruct (scan_header accept 0 rows) as [[hit |] | |]; cbn;
      split; congruence. }
  assert (∀ accept (err e : error),
            (scan_header accept 0 rows ≫=
               (λ found, match found with
                         | Some hit => Ok hit
                         | None => Status400 err
                         end)) = Status400 e ↔
            e = err ∧ scan_header accept 0 rows = Ok None) as H400.
  { intros accept err e.
    destruct (scan_header accept 0 rows) as [[hit |] | e' | x] eqn:Hscan; cbn.
    - split; [discriminate | intros [_ ?]; discriminate].
    - split; [intros [= ->]; auto | intros [-> _]; reflexivity].
    - destruct (scan_header_no_400 _ _ _ _ Hscan).
    - split; [discriminate | intros [_ ?]; discriminate]. }
  unfold detect_header, detect_roster_header.
  split; [| split; [| split]].
  - intros i headers. rewrite Hok, scan_header_Some_iff. reflexivity.
  - intros e. rewrite H400, scan_header_None_iff. reflexivity.
  - intros i hdr2. rewrite Hok, scan_header_Some_iff. reflexivity.
  - intros e. rewrite H400, scan_header_None_iff. reflexivity.
Qed.

(** A title row, the header, one data row. *)
Lemma header_scan_outcomes_witness :
  detect_header [[VStr "Report"; VNone; VInt 0]; Sample.header; Sample.jane] =
  Ok (1, ["Level"; "Emp ID - Name"; "Email ID"; "Sum of Missing Time"]).
Proof.
  apply (proj1 (header_scan_outcomes
                  [[VStr "Report"; VNone; VInt 0]; Sample.header;
                   Sample.jane])).
  exists [[VStr "Report"; VNone; VInt 0]], Sample.header, [Sample.jane].
  split; [reflexivity |]. split; [reflexivity |].
  split; [| split; reflexivity].
  repeat constructor. exists ["Report"; ""; ""]. split; reflexivity.
Defined.

(** ** The pipeline as a whole *)

Lemma roster_sets_skip (pre rows : list row) :
  Forall (passed_over is_roster_header) pre →
  roster_sets (pre ++ rows) = roster_sets rows.
Proof.
  intros Hpre. unfold roster_sets. rewrite (detect_roster_header_skip _ _ Hpre).
  destruct (detect_roster_header rows) as [[i hdr2] | |]; cbn; try reflexivity.
  replace (S (length pre + i)) with (length pre + S i) by lia.
  rewrite drop_past_prefix. reflexivity.
Qed.

(** X6: rows above a header that are read and do not pass the header test
    (title rows, blank rows) have no effect: the request gives the same
    outcome as on the two sheets without them. *)
Theorem upload_ignores_title_rows (pre pre' all_rows mgr_rows : list row) :
  Forall (passed_over is_monthly_header) pre →
  Forall (passed_over is_roster_header) pre' →
  upload (pre ++ all_rows) (pre' ++ mgr_rows) = upload all_rows mgr_rows.
Proof.
  intros Hpre Hpre'. unfold upload.
  rewrite (detect_header_skip _ _ Hpre), (roster_sets_skip _ _ Hpre').
  destruct (detect_header all_rows) as [[i headers] | |]; cbn; try reflexivity.
  replace (S (length pre + i)) with (length pre + S i) by lia.
  rewrite drop_past_prefix. reflexivity.
Qed.

(** Two title rows on the monthly sheet, a blank row on the manager list. *)
Lemma upload_ignores_title_rows_witness :
  upload ([[VStr "Missing time report"]; []]
          ++ [Sample.header; Sample.team_a; Sample.jane])
         ([[VNone; VNone]] ++ Sample.roster) =
  upload [Sample.header; Sample.team_a; Sample.jane] Sample.roster.
Proof.
  apply (upload_ignores_title_rows [[VStr "Missing time report"]; []]
           [[VNone; VNone]]).
  - repeat constructor; eexists; (split; [reflexivity | reflexivity]).
  - repeat constructor; eexists; (split; [reflexivity | reflexivity]).
Defined.

Lemma upload_400_cases (all_rows mgr_rows : list row) (e : error) :
  upload all_rows mgr_rows = Status400 e →
  detect_header all_rows = Status400 e
  ∨ (∃ hit, detect_header all_rows = Ok hit)
    ∧ detect_roster_header mgr_rows = Status400 e.
Proof.
  unfold upload.
  intros [H | ([i headers] & Hdet & H)]%bind_Status400; [left; exact H |].
  right. split; [eauto |].
  destruct (locate_columns_accepts headers (detect_header_accepts _ _ _ Hdet))
    as (ix & Hix & _).
  rewrite Hix in H. cbn [mbind outcome_bind] in H.
  apply bind_Status400 in H as [H | ([E N] & _ & H)].
  - unfold roster_sets in H.
    apply bind_Status400 in H as [H | ([j hdr2] & Hdet2 & H)]; [exact H |].
    destruct (first_index_is_Some _ _
                (detect_roster_header_accepts _ _ _ Hdet2)) as [je Hje].
    rewrite Hje in H. cbn [mbind outcome_bind] in H.
    apply bind_Status400 in H as [H | (S & _ & H)];
      [destruct (lookup_set_no_400 _ _ _ H) |].
    apply bind_Status400 in H as [H | (S' & _ & H)]; [| discriminate].
    destruct (first_index is_name_not_email hdr2); [| discriminate].
    destruct (lookup_set_no_400 _ _ _ H).
  - apply bind_Status400 in H as [H | ([cur res] & _ & H)]; [| discriminate].
    destruct (filter_rows_no_400 _ _ _ _ _ _ H).
Qed.

(** X7: the request is refused with the header message exactly when every
    row of the monthly sheet is read and none passes the header test; it is
    refused with the manager-list message exactly when the monthly header
    was found and every row of the manager list is read and none has a cell
    containing "email".  The monthly sheet is judged first: a monthly sheet
    without a header hides whatever is wrong with the manager list. *)
Theorem upload_refusals (all_rows mgr_rows : list row) :
  (upload all_rows mgr_rows = Status400 HeaderNotFound ↔
   Forall (passed_over is_monthly_header) all_rows)
  ∧ (upload all_rows mgr_rows = Status400 RosterHeaderNotFound ↔
     (∃ hit, detect_header all_rows = Ok hit)
     ∧ Forall (passed_over is_roster_header) mgr_rows).
Proof.
  split; split.
  - intros [H | [_ H]]%upload_400_cases.
    + unfold detect_header in H.
      destruct (scan_header is_monthly_header 0 all_rows) as [[hit |] | e | x]
        eqn:Hscan; cbn in H; try discriminate.
      * apply (scan_header_None_iff _ all_rows 0), Hscan.
      * destruct (scan_header_no_400 _ _ _ _ Hscan).
    + unfold detect_roster_header in H.
      destruct (scan_header is_roster_header 0 mgr_rows) as [[hit |] | e | x]
        eqn:Hscan; cbn in H; try discriminate.
      destruct (scan_header_no_400 _ _ _ _ Hscan).
  - intros Hrows. unfold upload.
    rewrite (detect_header_not_found _ Hrows). reflexivity.
  - intros [H | [Hhit H]]%upload_400_cases.
    + apply detect_header_400 in H. discriminate.
    + split; [exact Hhit |]. unfold detect_roster_header in H.
      destruct (scan_header is_roster_header 0 mgr_rows) as [[hit |] | e | x]
        eqn:Hscan; cbn in H; try discriminate.
      * apply (scan_header_None_iff _ mgr_rows 0), Hscan.
      * destruct (scan_header_no_400 _ _ _ _ Hscan).
  - intros [[[i headers] Hdet] Hrows]. unfold upload, roster_sets.
    rewrite Hdet. cbn [mbind outcome_bind].
    destruct (locate_columns_accepts headers
                (detect_header_accepts _ _ _ Hdet)) as (ix & -> & _).
    cbn [mbind outcome_bind].
    rewrite (detect_roster_header_not_found _ Hrows). reflexivity.
Qed.

(** A monthly sheet without header, against a manager list that would
    raise. *)
Lemma upload_refusals_witness :
  upload [[VStr "Level"; VStr "Name"]; [VNone; VStr "Jane"]]
    Sample.roster_no_email = Status400 HeaderNotFound.
Proof.
  apply (proj1 (upload_refusals
                  [[VStr "Level"; VStr "Name"]; [VNone; VStr "Jane"]]
                  Sample.roster_no_email)).
  repeat constructor; eexists; (split; [reflexivity | reflexivity]).
Defined.

Lemma detect_header_Ok_inv (rows : list row) (i : nat) (headers : list string) :
  detect_header rows = Ok (i, headers) →
  ∃ r, rows !! i = Some r ∧ row_vals r = Ok headers
       ∧ is_monthly_header headers = true.
Proof.
  unfold detect_header.
  destruct (scan_header is_monthly_header 0 rows) as [[[k vals] |] | |]
    eqn:Hscan; cbn; try discriminate.
  intros [= -> ->].
  apply scan_header_Some in Hscan as (pre & r & post & -> & -> & _ & Hr & Hacc).
  exists r. split; [| auto]. cbn. apply list_lookup_middle. reflexivity.
Qed.

Lemma detect_roster_header_Ok_inv (rows : list row) (i : nat)
    (hdr2 : list string) :
  detect_roster_header rows = Ok (i, hdr2) →
  ∃ r, rows !! i = Some r ∧ row_vals r = Ok hdr2
       ∧ is_roster_header hdr2 = true.
Proof.
  unfold detect_roster_header.
  destruct (scan_header is_roster_header 0 rows) as [[[k vals] |] | |]
    eqn:Hscan; cbn; try discriminate.
  intros [= -> ->].
  apply scan_header_Some in Hscan as (pre & r & post & -> & -> & _ & Hr & Hacc).
  exists r. split; [| auto]. cbn. apply list_lookup_middle. reflexivity.
Qed.

Lemma rectangular_lookup (w : nat) (rows : list row) (i : nat) (r : row) :
  rectangular w rows → rows !! i = Some r → length r = w.
Proof. intros Hrect Hr. exact (proj1 (Forall_lookup _ _) Hrect i r Hr). Qed.

Lemma rectangular_column (w : nat) (rows : list row) (n j : nat) :
  rectangular w rows → j < w →
  Forall (λ r : row, is_Some (r !! j)) (drop n rows).
Proof.
  intros Hrect Hj. apply Forall_drop.
  eapply Forall_impl; [exact Hrect |]. cbn. intros r Hr.
  apply lookup_lt_is_Some. lia.
Qed.

Lemma lookup_set_wide (idx : nat) (data : list row) :
  Forall (λ r : row, is_Some (r !! idx)) data →
  ∃ S, lookup_set idx data = Ok S.
Proof. intros (S & HS & _)%lookup_set_spec. eauto. Qed.

(** On rectangular sheets, the two headers decide the outcome. *)
Lemma upload_rectangular_Ok (w w' : nat) (all_rows mgr_rows : list row)
    (hit hit' : nat * list string) :
  rectangular w all_rows → rectangular w' mgr_rows →
  detect_header all_rows = Ok hit →
  detect_roster_header mgr_rows = Ok hit' →
  ∃ results, upload all_rows mgr_rows = Ok results.
Proof.
  intros Hrect Hrect' Hdet Hdet'.
  destruct hit as [i headers], hit' as [j hdr2].
  destruct (detect_header_Ok_inv _ _ _ Hdet) as (r & Hr & Hvals & Hacc).
  destruct (detect_roster_header_Ok_inv _ _ _ Hdet')
    as (r' & Hr' & Hvals' & Hacc').
  pose proof (row_vals_length _ _ Hvals) as Hlen.
  pose proof (row_vals_length _ _ Hvals') as Hlen'.
  rewrite (rectangular_lookup _ _ _ _ Hrect Hr) in Hlen.
  rewrite (rectangular_lookup _ _ _ _ Hrect' Hr') in Hlen'.
  destruct (locate_columns_accepts headers Hacc)
    as (ix & Hix & Hl & He & Hm & Hs).
  apply first_index_lt in Hl, He, Hm, Hs. rewrite Hlen in Hl, He, Hm, Hs.
  assert (Forall (wide ix) (drop (S i) all_rows)) as Hwide.
  { pose proof (rectangular_column w all_rows (S i) _ Hrect Hl) as H1.
    pose proof (rectangular_column w all_rows (S i) _ Hrect He) as H2.
    pose proof (rectangular_column w all_rows (S i) _ Hrect Hm) as H3.
    pose proof (rectangular_column w all_rows (S i) _ Hrect Hs) as H4.
    rewrite Forall_forall in H1, H2, H3, H4. apply Forall_forall.
    intros d Hd. unfold wide. auto. }
  destruct (first_index_is_Some _ _ Hacc') as [je Hje].
  pose proof (first_index_lt _ _ _ Hje) as Hje_lt. rewrite Hlen' in Hje_lt.
  destruct (lookup_set_wide je (drop (S j) mgr_rows)
              (rectangular_column _ _ _ _ Hrect' Hje_lt)) as [E HE].
  assert (∃ N, match first_index is_name_not_email hdr2 with
               | Some jn => lookup_set jn (drop (S j) mgr_rows)
               | None => Ok ∅
               end = Ok N) as [N HN].
  { destruct (first_index is_name_not_email hdr2) as [jn |] eqn:Hjn; [| eauto].
    apply first_index_lt in Hjn. rewrite Hlen' in Hjn.
    exact (lookup_set_wide jn _ (rectangular_column _ _ _ _ Hrect' Hjn)). }
  assert (roster_sets mgr_rows = Ok (E, N)) as Hsets.
  { unfold roster_sets. rewrite Hdet'. cbn [mbind outcome_bind].
    rewrite Hje. cbn [mbind outcome_bind]. rewrite HE. cbn [mbind outcome_bind].
    rewrite HN. reflexivity. }
  rewrite (upload_stages _ _ _ _ _ _ _ Hdet Hix Hsets).
  destruct (filter_rows_wide ix E N VNone [] _ Hwide) as [cur' ->].
  cbn. eauto.
Qed.

(** X8: on rectangular sheets (every row of a sheet has as many cells as
    every other, which is what the spreadsheet readers deliver) no cell
    lookup raises [IndexError]: the request renders a list, is refused for
    one of the two headers, or raises the [AttributeError] of a header
    scan. *)
Theorem upload_rectangular (w w' : nat) (all_rows mgr_rows : list row) :
  rectangular w all_rows →
  rectangular w' mgr_rows →
  (∃ results, upload all_rows mgr_rows = Ok results)
  ∨ upload all_rows mgr_rows = Status400 HeaderNotFound
  ∨ upload all_rows mgr_rows = Status400 RosterHeaderNotFound
  ∨ upload all_rows mgr_rows = Raised AttributeError.
Proof.
  intros Hrect Hrect'.
  destruct (detect_header all_rows) as [hit | e | x] eqn:Hdet.
  - destruct (detect_roster_header mgr_rows) as [hit' | e | x] eqn:Hdet'.
    + left. exact (upload_rectangular_Ok _ _ _ _ _ _ Hrect Hrect' Hdet Hdet').
    + right. right. left. destruct hit as [i headers].
      destruct (locate_columns_accepts headers
                  (detect_header_accepts _ _ _ Hdet)) as (ix & Hix & _).
      assert (e = RosterHeaderNotFound) as ->.
      { unfold detect_roster_header in Hdet'.
        destruct (scan_header is_roster_header 0 mgr_rows)
          as [[h |] | e' | x] eqn:Hscan; cbn in Hdet'; try discriminate.
        - congruence.
        - destruct (scan_header_no_400 _ _ _ _ Hscan). }
      unfold upload, roster_sets. rewrite Hdet. cbn [mbind outcome_bind].
      rewrite Hix. cbn [mbind outcome_bind]. rewrite Hdet'. reflexivity.
    + right. right. right. destruct hit as [i headers].
      destruct (locate_columns_accepts headers
                  (detect_header_accepts _ _ _ Hdet)) as (ix & Hix & _).
      destruct (detect_roster_header_Raised _ _ Hdet') as [-> _].
      unfold upload, roster_sets. rewrite Hdet. cbn [mbind outcome_bind].
      rewrite Hix. cbn [mbind outcome_bind]. rewrite Hdet'. reflexivity.
  - right. left. rewrite (detect_header_400 _ _ Hdet) in Hdet.
    unfold upload. rewrite Hdet. reflexivity.
  - right. right. right. destruct (detect_header_Raised _ _ Hdet) as [-> _].
    unfold upload. rewrite Hdet. reflexivity.
Qed.

(** A four-column monthly sheet with numbers among its data, a one-column
    manager list. *)
Lemma upload_rectangular_witness :
  (∃ results,
     upload [Sample.header; Sample.team_a; [VInt 7; VInt 8; VInt 9; VInt 1];
             Sample.jane] Sample.roster = Ok results)
  ∨ upload [Sample.header; Sample.team_a; [VInt 7; VInt 8; VInt 9; VInt 1];
            Sample.jane] Sample.roster = Status400 HeaderNotFound
  ∨ upload [Sample.header; Sample.team_a; [VInt 7; VInt 8; VInt 9; VInt 1];
            Sample.jane] Sample.roster = Status400 RosterHeaderNotFound
  ∨ upload [Sample.header; Sample.team_a; [VInt 7; VInt 8; VInt 9; VInt 1];
            Sample.jane] Sample.roster = Raised AttributeError.
Proof.
  apply (upload_rectangular 4 1); repeat constructor.
Defined.

(** ** The rendered entries *)

Section Rendered.

Variables (ix : columns) (E N : gset string).

Lemma getitem_Ok_cell (r : row) (i : nat) (v : value) :
  getitem r i = Ok v → cell r i = v.
Proof.
  unfold getitem, cell. destruct (r !! i); [| discriminate].
  intros [= ->]. reflexivity.
Qed.

(** One iteration that does not raise, on any row. *)
Lemma filter_row_Ok (cur : value) (res : list entry) (r : row)
    (st' : value * list entry) :
  filter_row ix E N (cur, res) r = Ok st' →
  st' = if is_group_header (cell r (idx_level ix))
        then (cell r (idx_level ix), res)
        else (cur, (res ++ if selected ix E N r
                           then [entry_of ix cur r] else [])%list).
Proof.
  unfold filter_row, selected, entry_of.
  intros (lvl & Hl%getitem_Ok_cell & H)%bind_Ok. rewrite Hl.
  destruct (is_group_header lvl); [congruence |]. cbn [negb andb].
  apply bind_Ok in H as (raw & He%getitem_Ok_cell & H). rewrite He.
  apply bind_Ok in H as (c & Hi%getitem_Ok_cell & H). rewrite Hi.
  destruct (matches E N raw (empinfo_of c)).
  - apply bind_Ok in H as (m & Hm%getitem_Ok_cell & H). rewrite Hm.
    congruence.
  - rewrite app_nil_r. congruence.
Qed.

(** A loop that does not raise appended exactly the expected entries. *)
Lemma filter_rows_Ok (cur cur' : value) (res res' : list entry)
    (data : list row) :
  filter_rows ix E N (cur, res) data = Ok (cur', res') →
  res' = (res ++ expected_entries ix E N cur data)%list.
Proof.
  revert cur res. induction data as [| r data IH]; intros cur res;
    cbn [filter_rows].
  - intros [= <- <-]. unfold expected_entries. cbn. rewrite app_nil_r.
    reflexivity.
  - intros (st' & Hrow%filter_row_Ok & Hrest)%bind_Ok. subst st'.
    unfold expected_entries. cbn [carried_levels zip zip_with List.filter].
    cbn [snd fst].
    destruct (is_group_header (cell r (idx_level ix))) eqn:Hg.
    + unfold selected at 1. rewrite Hg. cbn [negb andb].
      exact (IH _ _ Hrest).
    + destruct (selected ix E N r) eqn:Hsel.
      * rewrite (IH _ _ Hrest). cbn [map fst snd].
        rewrite <- app_assoc. reflexivity.
      * rewrite (IH _ _ Hrest), app_nil_r. reflexivity.
Qed.

Lemma expected_entries_length (cur : value) (data : list row) :
  (length (expected_entries ix E N cur data) ≤ length data)%nat.
Proof.
  unfold expected_entries. rewrite length_map.
  etransitivity; [apply List.filter_length_le |].
  rewrite length_zip. lia.
Qed.

(** Every expected entry comes from a row that matched. *)
Lemma expected_entries_matched (cur : value) (data : list row) :
  Forall (λ e, email_key (Email_ID e) ∈ E ∨ Py.lower (Name e) ∈ N)
         (expected_entries ix E N cur data).
Proof.
  unfold expected_entries. apply Forall_forall. intros e He.
  apply list_elem_of_In, in_map_iff in He as ([lvl r] & <- & Hin).
  apply filter_In in Hin as [_ Hsel]. cbn [fst snd] in *.
  unfold selected in Hsel. apply andb_prop in Hsel as [_ Hm].
  unfold matches in Hm. apply orb_prop in Hm as [Hm | Hm];
    apply bool_decide_eq_true in Hm; cbn; auto.
Qed.

(** The levels in force are the starting level or cells of group headers. *)
Lemma carried_levels_inv (P : value → Prop) (cur : value) (data : list row) :
  P cur → (∀ v, is_group_header v = true → P v) →
  Forall P (carried_levels ix cur data).
Proof.
  intros Hcur Hhead. revert cur Hcur.
  induction data as [| r data IH]; intros cur Hcur; cbn [carried_levels];
    constructor; [exact Hcur |].
  apply IH. destruct (is_group_header (cell r (idx_level ix))) eqn:Hg; auto.
Qed.

Lemma expected_entries_levels (P : value → Prop) (cur : value)
    (data : list row) :
  P cur → (∀ v, is_group_header v = true → P v) →
  Forall (λ e, P (Level e)) (expected_entries ix E N cur data).
Proof.
  intros Hcur Hhead. unfold expected_entries. apply Forall_forall. intros e He.
  apply list_elem_of_In, in_map_iff in He as ([lvl r] & <- & Hin).
  apply filter_In in Hin as [Hin _]. cbn [fst snd Level entry_of].
  apply list_elem_of_In, elem_of_zip_l in Hin.
  exact (proj1 (Forall_forall _ _)
           (carried_levels_inv P cur data Hcur Hhead) lvl Hin).
Qed.

End Rendered.

Lemma upload_Ok_inv (all_rows mgr_rows : list row) (results : list entry) :
  upload all_rows mgr_rows = Ok results →
  ∃ i headers ix E N,
    detect_header all_rows = Ok (i, headers)
    ∧ locate_columns headers = Ok ix
    ∧ roster_sets mgr_rows = Ok (E, N)
    ∧ results = expected_entries ix E N VNone (drop (S i) all_rows).
Proof.
  unfold upload.
  intros ([i headers] & Hdet & H)%bind_Ok.
  apply bind_Ok in H as (ix & Hix & H).
  apply bind_Ok in H as ([E N] & Hsets & H).
  apply bind_Ok in H as ([cur res] & Hrun & [= <-]).
  exists i, headers, ix, E, N. repeat split; auto.
  exact (filter_rows_Ok _ _ _ _ _ _ _ _ Hrun).
Qed.

(** X9: every rendered entry belongs to a matched employee: the key of its
    Email ID is in the email set of the manager list, or its Name,
    lowercased, is in the name set; and there are fewer entries than rows on
    the monthly sheet. *)
Theorem rendered_entries_matched (all_rows mgr_rows : list row)
    (E N : gset string) (results : list entry) :
  roster_sets mgr_rows = Ok (E, N) →
  upload all_rows mgr_rows = Ok results →
  Forall (λ e, email_key (Email_ID e) ∈ E ∨ Py.lower (Name e) ∈ N) results
  ∧ (length results < length all_rows)%nat.
Proof.
  intros Hsets (i & headers & ix & E' & N' & Hdet & _ & Hsets' & ->)%upload_Ok_inv.
  rewrite Hsets in Hsets'. injection Hsets' as <- <-.
  split; [apply expected_entries_matched |].
  destruct (detect_header_Ok_inv _ _ _ Hdet) as (r & Hr%lookup_lt_Some & _).
  pose proof (expected_entries_length ix E N VNone (drop (S i) all_rows)) as Hlen.
  rewrite length_drop in Hlen. lia.
Qed.

(** Jane matches by email, Bob does not match. *)
Lemma rendered_entries_matched_witness :
  Forall (λ e, email_key (Email_ID e) ∈ Sample.emails
               ∨ Py.lower (Name e) ∈ (∅ : gset string))
         [Entry VNone "Jane" (VStr "a@x.com") (VInt 5)]
  ∧ (length [Entry VNone "Jane" (VStr "a@x.com") (VInt 5)] <
     length [Sample.header; Sample.bob; Sample.jane])%nat.
Proof.
  apply (rendered_entries_matched [Sample.header; Sample.bob; Sample.jane]
           Sample.roster).
  - vm_compute. reflexivity.
  - vm_compute. reflexivity.
Defined.

Lemma group_header_cell (r : row) (i : nat) :
  is_group_header (cell r i) = true → r !! i = Some (cell r i).
Proof.
  unfold cell. destruct (r !! i); [reflexivity | discriminate].
Qed.

(** Where the level in force at row [k] comes from, for a loop started at
    [cur]. *)
Lemma carried_levels_lookup (ix : columns) (cur : value) (data : list row)
    (k : nat) (lvl : value) :
  carried_levels ix cur data !! k = Some lvl →
  (lvl = cur
   ∧ ∀ j r, j < k → data !! j = Some r →
            is_group_header (cell r (idx_level ix)) = false)
  ∨ ∃ j r,
      j < k ∧ data !! j = Some r
      ∧ r !! idx_level ix = Some lvl ∧ is_group_header lvl = true
      ∧ ∀ j' r', j < j' → j' < k → data !! j' = Some r' →
                 is_group_header (cell r' (idx_level ix)) = false.
Proof.
  revert cur k. induction data as [| r data IH]; intros cur k;
    cbn [carried_levels]; [discriminate |].
  destruct k as [| k]; cbn [lookup list_lookup].
  - intros [= <-]. left. split; [reflexivity |]. intros j r' Hj. lia.
  - intros [[-> Hnone] | (j & r0 & Hj & Hr0 & Hcell & Hhead & Hbetween)]%IH.
    + destruct (is_group_header (cell r (idx_level ix))) eqn:Hg.
      * right. exists 0, r. split; [lia |]. split; [reflexivity |].
        split; [apply group_header_cell, Hg |]. split; [exact Hg |].
        intros [| j'] r' Hlt Hlt' Hr'; [lia |].
        apply (Hnone j' r'); [lia | exact Hr'].
      * left. split; [reflexivity |].
        intros [| j] r' Hj Hr'.
        -- injection Hr' as <-. exact Hg.
        -- apply (Hnone j r'); [lia | exact Hr'].
    + right. exists (S j), r0. split; [lia |]. split; [exact Hr0 |].
      split; [exact Hcell |]. split; [exact Hhead |].
      intros [| j'] r' Hlt Hlt' Hr'; [lia |].
      apply (Hbetween j' r'); [lia | lia | exact Hr'].
Qed.

(** Every expected entry is the entry of a row of [data], with the level in
    force at that row. *)
Lemma expected_entries_origin (ix : columns) (E N : gset string)
    (cur : value) (data : list row) (e : entry) :
  e ∈ expected_entries ix E N cur data →
  ∃ k lvl r,
    carried_levels ix cur data !! k = Some lvl ∧ data !! k = Some r
    ∧ selected ix E N r = true ∧ e = entry_of ix lvl r.
Proof.
  unfold expected_entries.
  intros ([lvl r] & <- & Hin)%list_elem_of_In%in_map_iff.
  apply filter_In in Hin as [Hin Hsel]. cbn [fst snd] in *.
  apply list_elem_of_In, list_elem_of_lookup in Hin as [k Hk].
  apply lookup_zip_with_Some in Hk as (lvl' & r' & [= -> ->] & Hlvl & Hr).
  exists k, lvl', r'. auto.
Qed.

(** X10: every rendered entry is the entry of a data row below the header,
    and its Level is the one set by the nearest group header above that
    row: the raw Level cell, not blank, of the last row above it whose
    Level cell is not blank, or [None] when no row above it, below the
    header, is a group header.  No entry carries an empty or white-space
    Level. *)
Theorem rendered_levels (all_rows mgr_rows : list row)
    (results : list entry) :
  upload all_rows mgr_rows = Ok results →
  ∃ i headers ix,
    detect_header all_rows = Ok (i, headers)
    ∧ locate_columns headers = Ok ix
    ∧ Forall (λ e, ∃ k r,
                drop (S i) all_rows !! k = Some r
                ∧ e = entry_of ix (Level e) r
                ∧ level_origin ix (drop (S i) all_rows) k (Level e))
             results.
Proof.
  intros (i & headers & ix & E & N & Hdet & Hix & _ & ->)%upload_Ok_inv.
  exists i, headers, ix. split; [exact Hdet |]. split; [exact Hix |].
  apply Forall_forall. intros e He.
  apply expected_entries_origin in He as (k & lvl & r & Hlvl & Hr & _ & ->).
  exists k, r. cbn [Level entry_of]. split; [exact Hr |].
  split; [reflexivity |].
  exact (carried_levels_lookup _ _ _ _ _ Hlvl).
Qed.

(** Jane before the first group header, under "Team A" with Bob's row in
    between, and under "Team B". *)
Lemma rendered_levels_witness :
  ∃ i headers ix,
    detect_header [Sample.header; Sample.jane; Sample.team_a; Sample.bob;
                   Sample.jane; [VStr "Team B"]; Sample.jane] =
    Ok (i, headers)
    ∧ locate_columns headers = Ok ix
    ∧ Forall (λ e, ∃ k r,
                drop (S i) [Sample.header; Sample.jane; Sample.team_a;
                            Sample.bob; Sample.jane; [VStr "Team B"];
                            Sample.jane] !! k = Some r
                ∧ e = entry_of ix (Level e) r
                ∧ level_origin ix
                    (drop (S i) [Sample.header; Sample.jane; Sample.team_a;
                                 Sample.bob; Sample.jane; [VStr "Team B"];
                                 Sample.jane]) k (Level e))
             [Entry VNone "Jane" (VStr "a@x.com") (VInt 5);
              Entry (VStr "Team A") "Jane" (VStr "a@x.com") (VInt 5);
              Entry (VStr "Team B") "Jane" (VStr "a@x.com") (VInt 5)].
Proof.
  apply (rendered_levels [Sample.header; Sample.jane; Sample.team_a;
                          Sample.bob; Sample.jane; [VStr "Team B"];
                          Sample.jane] Sample.roster).
  vm_compute. reflexivity.
Defined.

(** ** The manager list as a set *)

Lemma lookup_set_short (idx : nat) (data : list row) :
  Exists (λ r : row, r !! idx = None) data →
  lookup_set idx data = Raised IndexError.
Proof.
  induction data as [| r data IH]; [intros H; inversion H |].
  cbn [lookup_set]. unfold getitem.
  destruct (r !! idx) as [v |] eqn:Hv; [| reflexivity].
  intros [H | H]%Exists_cons; [congruence |]. cbn. rewrite (IH H). reflexivity.
Qed.

Lemma lookup_set_cases (idx : nat) (data : list row) :
  Forall (λ r : row, is_Some (r !! idx)) data
  ∨ Exists (λ r : row, r !! idx = None) data.
Proof.
  induction data as [| r data [IH | IH]].
  - left. constructor.
  - destruct (r !! idx) eqn:Hr.
    + left. constructor; [rewrite Hr; eauto | exact IH].
    + right. left. exact Hr.
  - right. right. exact IH.
Qed.

(** X11: a lookup set depends on the rows below the header only as a set of
    rows: reordering them or repeating some gives the same set, or the same
    [IndexError]. *)
Theorem lookup_set_order_free (idx : nat) (data data' : list row) :
  (∀ r, r ∈ data ↔ r ∈ data') →
  lookup_set idx data = lookup_set idx data'.
Proof.
  intros Hsame.
  destruct (lookup_set_cases idx data) as [Hwide | Hshort].
  - assert (Forall (λ r : row, is_Some (r !! idx)) data') as Hwide'.
    { apply Forall_forall. intros r Hr%Hsame.
      exact (proj1 (Forall_forall _ _) Hwide r Hr). }
    destruct (lookup_set_spec idx data Hwide) as (S & -> & HS).
    destruct (lookup_set_spec idx data' Hwide') as (S' & -> & HS').
    f_equal. apply set_eq. intros x. rewrite HS, HS'.
    split; intros (r & v & Hr & Hrest); exists r, v;
      (split; [apply Hsame, Hr | exact Hrest]).
  - rewrite (lookup_set_short idx data Hshort).
    symmetry. apply lookup_set_short.
    apply Exists_exists in Hshort as (r & Hr & Hnone).
    apply Exists_exists. exists r. split; [apply Hsame, Hr | exact Hnone].
Qed.

(** Two managers, listed twice and in the other order. *)
Lemma lookup_set_order_free_witness :
  lookup_set 0 [[VStr "a@x.com"]; [VStr "b@x.com"]] =
  lookup_set 0 [[VStr "b@x.com"]; [VStr "a@x.com"]; [VStr "b@x.com"]].
Proof.
  apply (lookup_set_order_free 0).
  intros r. rewrite !elem_of_cons, !elem_of_nil. tauto.
Defined.

Lemma lookup_set_app (idx : nat) (data extra : list row)
    (S' : gset string) :
  lookup_set idx (data ++ extra) = Ok S' →
  ∃ S, lookup_set idx data = Ok S ∧ S ⊆ S'.
Proof.
  revert S'. induction data as [| r data IH]; intros S'; cbn [app lookup_set].
  - intros _. exists ∅. split; [reflexivity | set_solver].
  - intros (v & Hv & Hrest)%bind_Ok.
    apply bind_Ok in Hrest as (S1 & HS1 & HS').
    injection HS' as <-. destruct (IH _ HS1) as (S & HS & Hsub).
    rewrite Hv, HS. cbn. eexists. split; [reflexivity |].
    destruct (truthy v).
    + apply union_mono_l, Hsub.
    + exact Hsub.
Qed.

Lemma scan_header_app_Some (accept : list string → bool) (rows extra : list row)
    (i : nat) (hit : nat * list string) :
  scan_header accept i rows = Ok (Some hit) →
  scan_header accept i (rows ++ extra) = Ok (Some hit).
Proof.
  revert i. induction rows as [| r rows IH]; intros i; cbn [app scan_header];
    [discriminate |].
  destruct (row_vals r) as [vals | |]; cbn; try discriminate.
  destruct (accept vals); [auto | apply IH].
Qed.

Lemma selected_mono (ix : columns) (E N E' N' : gset string) (r : row) :
  E ⊆ E' → N ⊆ N' →
  selected ix E N r = true → selected ix E' N' r = true.
Proof.
  intros HE HN. unfold selected, matches.
  intros [Hg [Hm | Hm]%orb_prop]%andb_prop; rewrite Hg; cbn [andb];
    apply bool_decide_eq_true in Hm.
  - rewrite (bool_decide_eq_true_2 _ (HE _ Hm)). reflexivity.
  - rewrite (bool_decide_eq_true_2 _ (HN _ Hm)). apply orb_true_r.
Qed.

Lemma expected_entries_mono (ix : columns) (E N E' N' : gset string)
    (cur : value) (data : list row) :
  E ⊆ E' → N ⊆ N' →
  sublist (expected_entries ix E N cur data)
          (expected_entries ix E' N' cur data).
Proof.
  intros HE HN. unfold expected_entries.
  induction (zip (carried_levels ix cur data) data) as [| [lvl r] l IH];
    cbn [List.filter map]; [constructor |]. cbn [fst snd].
  destruct (selected ix E N r) eqn:Hsel.
  - rewrite (selected_mono ix E N E' N' r HE HN Hsel). cbn [map].
    apply sublist_skip, IH.
  - destruct (selected ix E' N' r); [cbn [map]; apply sublist_cons |];
      exact IH.
Qed.

(** X12: rows added at the end of the manager list never take an entry out
    of the report: when both requests render, the first list is a sublist
    of the second, in the same order. *)
Theorem more_managers_more_entries (all_rows mgr_rows extra : list row)
    (results results' : list entry) :
  upload all_rows mgr_rows = Ok results →
  upload all_rows (mgr_rows ++ extra) = Ok results' →
  sublist results results'.
Proof.
  intros (i & headers & ix & E & N & Hdet & Hix & Hsets & ->)%upload_Ok_inv.
  intros (i' & headers' & ix' & E' & N' & Hdet' & Hix' & Hsets' & ->)%upload_Ok_inv.
  rewrite Hdet in Hdet'. injection Hdet' as <- <-.
  rewrite Hix in Hix'. injection Hix' as <-.
  apply expected_entries_mono.
  - unfold roster_sets in Hsets, Hsets'.
    apply bind_Ok in Hsets as ([j hdr2] & Hj & Hsets).
    assert (detect_roster_header (mgr_rows ++ extra) = Ok (j, hdr2)) as Hj'.
    { unfold detect_roster_header in *.
      destruct (scan_header is_roster_header 0 mgr_rows) as [[hit |] | |]
        eqn:Hscan; cbn in Hj; try discriminate.
      rewrite (scan_header_app_Some _ _ extra _ _ Hscan). exact Hj. }
    rewrite Hj' in Hsets'. cbn [mbind outcome_bind] in Hsets'.
    destruct (detect_roster_header_Ok_inv _ _ _ Hj) as (r & Hr%lookup_lt_Some & _).
    rewrite drop_app_le in Hsets' by lia.
    destruct (first_index is_email hdr2) as [je |]; [| discriminate].
    cbn [mbind outcome_bind] in Hsets, Hsets'.
    apply bind_Ok in Hsets as (S & HS & Hsets).
    apply bind_Ok in Hsets' as (S' & HS' & Hsets').
    destruct (lookup_set_app _ _ _ _ HS') as (S0 & HS0 & Hsub).
    rewrite HS in HS0. injection HS0 as <-.
    apply bind_Ok in Hsets as (T & _ & [= <- <-]).
    apply bind_Ok in Hsets' as (T' & _ & [= <- <-]). exact Hsub.
  - unfold roster_sets in Hsets, Hsets'.
    apply bind_Ok in Hsets as ([j hdr2] & Hj & Hsets).
    assert (detect_roster_header (mgr_rows ++ extra) = Ok (j, hdr2)) as Hj'.
    { unfold detect_roster_header in *.
      destruct (scan_header is_roster_header 0 mgr_rows) as [[hit |] | |]
        eqn:Hscan; cbn in Hj; try discriminate.
      rewrite (scan_header_app_Some _ _ extra _ _ Hscan). exact Hj. }
    rewrite Hj' in Hsets'. cbn [mbind outcome_bind] in Hsets'.
    destruct (detect_roster_header_Ok_inv _ _ _ Hj) as (r & Hr%lookup_lt_Some & _).
    rewrite drop_app_le in Hsets' by lia.
    destruct (first_index is_email hdr2) as [je |]; [| discriminate].
    cbn [mbind outcome_bind] in Hsets, Hsets'.
    apply bind_Ok in Hsets as (S & HS & Hsets).
    apply bind_Ok in Hsets' as (S' & HS' & Hsets').
    apply bind_Ok in Hsets as (T & HT & [= <- <-]).
    apply bind_Ok in Hsets' as (T' & HT' & [= <- <-]).
    destruct (first_index is_name_not_email hdr2) as [jn |].
    + destruct (lookup_set_app _ _ _ _ HT') as (T0 & HT0 & Hsub).
      rewrite HT in HT0. injection HT0 as <-. exact Hsub.
    + injection HT as <-. set_solver.
Qed.

(** Bob's manager is added to the list: Jane's entry stays, Bob's comes. *)
Lemma more_managers_more_entries_witness :
  sublist [Entry VNone "Jane" (VStr "a@x.com") (VInt 5)]
          [Entry VNone "Bob" (VStr "b@x.com") (VInt 7);
           Entry VNone "Jane" (VStr "a@x.com") (VInt 5)].
Proof.
  apply (more_managers_more_entries [Sample.header; Sample.bob; Sample.jane]
           Sample.roster [[VStr "B@x.com "]]).
  - vm_compute. reflexivity.
  - vm_compute. reflexivity.
Defined.

(** ** Empty sheets *)

(** X13: when the header is the last row of the monthly sheet there is
    nothing to filter: provided the manager list is read, the request
    renders an empty list and is not refused. *)
Theorem empty_monthly_data (all_rows mgr_rows : list row) (i : nat)
    (headers : list string) (sets : gset string * gset string) :
  detect_header all_rows = Ok (i, headers) →
  S i = length all_rows →
  roster_sets mgr_rows = Ok sets →
  upload all_rows mgr_rows = Ok [].
Proof.
  intros Hdet Hlast Hsets. destruct sets as [E N].
  destruct (locate_columns_accepts headers (detect_header_accepts _ _ _ Hdet))
    as (ix & Hix & _).
  rewrite (upload_stages _ _ _ _ _ _ _ Hdet Hix Hsets).
  rewrite drop_ge by lia. reflexivity.
Qed.

(** A title row and the header, nothing below. *)
Lemma empty_monthly_data_witness :
  upload [[VStr "April"]; Sample.header] Sample.roster = Ok [].
Proof.
  apply (empty_monthly_data [[VStr "April"]; Sample.header] Sample.roster 1
           ["Level"; "Emp ID - Name"; "Email ID"; "Sum of Missing Time"]
           (Sample.emails, ∅)).
  - vm_compute. reflexivity.
  - reflexivity.
  - vm_compute. reflexivity.
Defined.

(** X14: when the header is the last row of the manager list both lookup
    sets are empty, and no monthly sheet gets an entry rendered. *)
Theorem empty_manager_list (mgr_rows : list row) (j : nat)
    (hdr2 : list string) :
  detect_roster_header mgr_rows = Ok (j, hdr2) →
  S j = length mgr_rows →
  roster_sets mgr_rows = Ok (∅, ∅)
  ∧ ∀ all_rows results,
      upload all_rows mgr_rows = Ok results → results = [].
Proof.
  intros Hdet Hlast.
  assert (roster_sets mgr_rows = Ok (∅, ∅)) as Hsets.
  { unfold roster_sets. rewrite Hdet. cbn [mbind outcome_bind].
    rewrite drop_ge by lia.
    destruct (first_index_is_Some _ _
                (detect_roster_header_accepts _ _ _ Hdet)) as [je ->].
    cbn. destruct (first_index is_name_not_email hdr2); reflexivity. }
  split; [exact Hsets |].
  intros all_rows results Hup.
  apply upload_Ok_inv in Hup
    as (i & headers & ix & E & N & _ & _ & Hsets' & ->).
  rewrite Hsets in Hsets'. injection Hsets' as <- <-.
  pose proof (expected_entries_matched ix ∅ ∅ VNone (drop (S i) all_rows))
    as Hall.
  destruct (expected_entries ix ∅ ∅ VNone (drop (S i) all_rows)) as [| e l];
    [reflexivity |].
  apply Forall_cons in Hall as [[He | He] _]; set_solver.
Qed.

(** A manager list that stops at its header. *)
Lemma empty_manager_list_witness :
  roster_sets [[VStr "Managers"]; [VStr "Name"; VStr "Email"]] = Ok (∅, ∅)
  ∧ ∀ all_rows results,
      upload all_rows [[VStr "Managers"]; [VStr "Name"; VStr "Email"]] =
      Ok results → results = [].
Proof.
  apply (empty_manager_list [[VStr "Managers"]; [VStr "Name"; VStr "Email"]]
           1 ["Name"; "Email"]); reflexivity.
Defined.

(** ** Normal forms of the keys *)

Section Normal.

Lemma lower_char_idem (c : ascii) :
  Py.lower_char (Py.lower_char c) = Py.lower_char c.
Proof. destruct c as [[] [] [] [] [] [] [] []]; reflexivity. Qed.

Lemma isspace_lower_char (c : ascii) :
  Py.isspace (Py.lower_char c) = Py.isspace c.
Proof. destruct c as [[] [] [] [] [] [] [] []]; reflexivity. Qed.

Lemma isspace_not_dash (c : ascii) :
  Py.isspace c = true → Ascii.eqb c "-" = false.
Proof. destruct c as [[] [] [] [] [] [] [] []]; vm_compute; congruence. Qed.

Lemma lower_idem (s : string) : Py.lower (Py.lower s) = Py.lower s.
Proof.
  induction s as [| c s IH]; [reflexivity |]. cbn.
  rewrite lower_char_idem, IH. reflexivity.
Qed.

Lemma lstrip_lower (s : string) :
  Py.lstrip (Py.lower s) = Py.lower (Py.lstrip s).
Proof.
  induction s as [| c s IH]; [reflexivity |]. cbn.
  rewrite isspace_lower_char. destruct (Py.isspace c); [exact IH | reflexivity].
Qed.

Lemma rstrip_lower (s : string) :
  Py.rstrip (Py.lower s) = Py.lower (Py.rstrip s).
Proof.
  induction s as [| c s IH]; [reflexivity |]. cbn.
  rewrite IH, isspace_lower_char.
  destruct (Py.rstrip s); cbn; [destruct (Py.isspace c) |]; reflexivity.
Qed.

Lemma strip_lower (s : string) :
  Py.strip (Py.lower s) = Py.lower (Py.strip s).
Proof. unfold Py.strip. rewrite lstrip_lower, rstrip_lower. reflexivity. Qed.

Lemma lstrip_idem (s : string) : Py.lstrip (Py.lstrip s) = Py.lstrip s.
Proof.
  induction s as [| c s IH]; [reflexivity |]. cbn.
  destruct (Py.isspace c) eqn:Hc; [exact IH |]. cbn. rewrite Hc. reflexivity.
Qed.

Lemma rstrip_idem (s : string) : Py.rstrip (Py.rstrip s) = Py.rstrip s.
Proof.
  induction s as [| c s IH]; [reflexivity |]. cbn [Py.rstrip].
  destruct (Py.rstrip s) as [| d r] eqn:Hr.
  - destruct (Py.isspace c) eqn:Hc; [reflexivity |]. cbn. rewrite Hc.
    reflexivity.
  - cbn [Py.rstrip] in *. rewrite IH. reflexivity.
Qed.

Lemma lstrip_rstrip (s : string) :
  Py.lstrip (Py.rstrip s) = Py.rstrip (Py.lstrip s).
Proof.
  induction s as [| c s IH]; [reflexivity |].
  cbn [Py.lstrip Py.rstrip]. destruct (Py.isspace c) eqn:Hc.
  - destruct (Py.rstrip s) as [| d r] eqn:Hr.
    + rewrite <- IH. reflexivity.
    + rewrite <- IH. cbn [Py.lstrip]. rewrite Hc. reflexivity.
  - cbn [Py.rstrip]. destruct (Py.rstrip s) as [| d r] eqn:Hr;
      rewrite ?Hc; cbn [Py.lstrip]; rewrite Hc; reflexivity.
Qed.

Lemma strip_idem (s : string) : Py.strip (Py.strip s) = Py.strip s.
Proof.
  unfold Py.strip.
  rewrite (lstrip_rstrip (Py.lstrip s)), lstrip_idem, rstrip_idem.
  reflexivity.
Qed.

Lemma lstrip_pad (ws s : string) :
  whitespace ws = true → Py.lstrip (ws +:+ s) = Py.lstrip s.
Proof.
  induction ws as [| c ws IH]; [reflexivity |].
  cbn [whitespace]. intros [Hc Hws]%andb_prop.
  change (String c ws +:+ s) with (String c (ws +:+ s)).
  cbn [Py.lstrip]. rewrite Hc. exact (IH Hws).
Qed.

Lemma rstrip_whitespace (ws : string) :
  whitespace ws = true → Py.rstrip ws = "".
Proof.
  induction ws as [| c ws IH]; [reflexivity |].
  cbn [whitespace]. intros [Hc Hws]%andb_prop.
  cbn [Py.rstrip]. rewrite (IH Hws), Hc. reflexivity.
Qed.

Lemma rstrip_pad (s ws : string) :
  whitespace ws = true → Py.rstrip (s +:+ ws) = Py.rstrip s.
Proof.
  intros Hws. induction s as [| c s IH].
  - exact (rstrip_whitespace ws Hws).
  - change (String c s +:+ ws) with (String c (s +:+ ws)).
    cbn [Py.rstrip]. rewrite IH. reflexivity.
Qed.

Lemma strip_pad (ws1 s ws2 : string) :
  whitespace ws1 = true → whitespace ws2 = true →
  Py.strip (ws1 +:+ s +:+ ws2) = Py.strip s.
Proof.
  intros H1 H2. unfold Py.strip.
  rewrite (lstrip_pad ws1 _ H1), <- lstrip_rstrip, (rstrip_pad s ws2 H2).
  apply lstrip_rstrip.
Qed.

Lemma email_key_str (s : string) : email_key (VStr s) = normalize (VStr s).
Proof.
  unfold email_key. cbn [truthy].
  destruct (String.eqb_spec s "") as [-> | _]; reflexivity.
Qed.

End Normal.

Section Keys.

Lemma append_assoc' (a b c : string) : (a +:+ b) +:+ c = a +:+ (b +:+ c).
Proof.
  induction a as [| x a IH]; [reflexivity |].
  change ((String x a +:+ b) +:+ c) with (String x ((a +:+ b) +:+ c)).
  rewrite IH. reflexivity.
Qed.

Lemma contains_dash_app (a b : string) :
  Py.contains "-" (a +:+ b) = Py.contains "-" a || Py.contains "-" b.
Proof.
  induction a as [| c a IH]; [reflexivity |].
  change (String c a +:+ b) with (String c (a +:+ b)).
  rewrite !contains_char_cons, IH. apply orb_assoc.
Qed.

Lemma whitespace_no_dash (ws : string) :
  whitespace ws = true → Py.contains "-" ws = false.
Proof.
  induction ws as [| c ws IH]; [reflexivity |].
  cbn [whitespace]. intros [Hc Hws]%andb_prop.
  rewrite contains_char_cons, (isspace_not_dash c Hc), (IH Hws). reflexivity.
Qed.

Lemma first_dash_split (s : string) :
  Py.contains "-" s = true →
  ∃ a b, s = a +:+ String "-" b ∧ Py.contains "-" a = false.
Proof.
  induction s as [| c s IH]; [discriminate |].
  rewrite contains_char_cons.
  destruct (Ascii.eqb_spec c "-") as [-> | Hc].
  - intros _. exists "", s. split; reflexivity.
  - cbn [orb]. intros (a & b & -> & Ha)%IH.
    exists (String c a), b. split; [reflexivity |].
    rewrite contains_char_cons, Ha.
    destruct (Ascii.eqb_spec c "-"); [contradiction | reflexivity].
Qed.

Lemma name_part_pad (ws1 s ws2 : string) :
  whitespace ws1 = true → whitespace ws2 = true →
  name_part (ws1 +:+ s +:+ ws2) = name_part s.
Proof.
  intros H1 H2. destruct (Py.contains "-" s) eqn:Hs.
  - destruct (first_dash_split s Hs) as (a & b & -> & Ha).
    replace (ws1 +:+ (a +:+ String "-" b) +:+ ws2)
      with ((ws1 +:+ a) +:+ String "-" (b +:+ ws2))
      by (rewrite !append_assoc'; reflexivity).
    unfold name_part. rewrite split1_first_dash, (split1_first_dash a b Ha).
    + exact (strip_pad "" b ws2 eq_refl H2).
    + rewrite contains_dash_app, (whitespace_no_dash ws1 H1), Ha. reflexivity.
  - unfold name_part. rewrite (split1_no_dash s Hs), split1_no_dash.
    + apply strip_pad; assumption.
    + rewrite !contains_dash_app, (whitespace_no_dash ws1 H1),
        (whitespace_no_dash ws2 H2), Hs. reflexivity.
Qed.

Lemma lower_char_dash (c : ascii) :
  Ascii.eqb (Py.lower_char c) "-" = Ascii.eqb c "-".
Proof. destruct c as [[] [] [] [] [] [] [] []]; reflexivity. Qed.

Lemma split1_lower (s : string) :
  Py.split1 "-" (Py.lower s) = map Py.lower (Py.split1 "-" s).
Proof.
  induction s as [| c s IH]; [reflexivity |].
  cbn [Py.lower Py.split1]. rewrite lower_char_dash, IH.
  destruct (Ascii.eqb c "-"); [reflexivity |].
  destruct (Py.split1 "-" s); reflexivity.
Qed.

Lemma name_key_lower (s : string) : name_key (Py.lower s) = name_key s.
Proof.
  unfold name_key, name_part. rewrite split1_lower.
  destruct (Py.split1 "-" s) as [| p [| q l]]; cbn [map];
    rewrite strip_lower, lower_idem; reflexivity.
Qed.

Lemma normalize_lower (s : string) :
  normalize (VStr (Py.lower s)) = normalize (VStr s).
Proof. unfold normalize. cbn [str]. rewrite strip_lower. apply lower_idem. Qed.

End Keys.

(** X15: white space around the text of a cell does not change its key:
    the email key, the key stored for a manager-list cell and the name key
    of an EmployeeInfo string are those of the text without the padding. *)
Theorem keys_ignore_padding (ws1 s ws2 : string) :
  whitespace ws1 = true →
  whitespace ws2 = true →
  email_key (VStr (ws1 +:+ s +:+ ws2)) = email_key (VStr s)
  ∧ normalize (VStr (ws1 +:+ s +:+ ws2)) = normalize (VStr s)
  ∧ name_key (ws1 +:+ s +:+ ws2) = name_key s.
Proof.
  intros H1 H2. rewrite !email_key_str. unfold normalize, name_key. cbn [str].
  rewrite (strip_pad ws1 s ws2 H1 H2), (name_part_pad ws1 s ws2 H1 H2). auto.
Qed.

(** A tab before and a line end after the cell's text. *)
Lemma keys_ignore_padding_witness :
  email_key (VStr (String "009" " " +:+ "A@x.com" +:+ String "010" ""))
  = email_key (VStr "A@x.com")
  ∧ normalize (VStr (String "009" " " +:+ "A@x.com" +:+ String "010" ""))
    = normalize (VStr "A@x.com")
  ∧ name_key (String "009" " " +:+ "A@x.com" +:+ String "010" "")
    = name_key "A@x.com".
Proof.
  apply (keys_ignore_padding (String "009" " ") "A@x.com" (String "010" ""));
    reflexivity.
Defined.

(** X16: cells whose texts differ only in the case of their letters have
    the same key, for emails and for names, on the monthly sheet and on the
    manager list. *)
Theorem keys_ignore_case (s t : string) :
  Py.lower s = Py.lower t →
  email_key (VStr s) = email_key (VStr t)
  ∧ normalize (VStr s) = normalize (VStr t)
  ∧ name_key s = name_key t.
Proof.
  intros Hst. rewrite !email_key_str.
  rewrite <- (normalize_lower s), <- (normalize_lower t), Hst.
  rewrite <- (name_key_lower s), <- (name_key_lower t), Hst. auto.
Qed.

(** An email in capitals and the same in small letters. *)
Lemma keys_ignore_case_witness :
  email_key (VStr "Jane.Doe@X.COM") = email_key (VStr "jane.doe@x.com")
  ∧ normalize (VStr "Jane.Doe@X.COM") = normalize (VStr "jane.doe@x.com")
  ∧ name_key "Jane.Doe@X.COM" = name_key "jane.doe@x.com".
Proof.
  apply (keys_ignore_case "Jane.Doe@X.COM" "jane.doe@x.com"). reflexivity.
Defined.

(** X17: every key is in normal form, lowercase and without white space at
    its ends: the keys kept in a lookup set, and the email and name keys
    that are looked up in them. *)
Theorem keys_are_normal :
  (∀ idx data (S : gset string) x,
     lookup_set idx data = Ok S → x ∈ S →
     Py.lower x = x ∧ Py.strip x = x)
  ∧ (∀ v, Py.lower (email_key v) = email_key v
          ∧ Py.strip (email_key v) = email_key v)
  ∧ (∀ s, Py.lower (name_key s) = name_key s
          ∧ Py.strip (name_key s) = name_key s).
Proof.
  assert (∀ s, Py.lower (Py.lower (Py.strip s)) = Py.lower (Py.strip s)
               ∧ Py.strip (Py.lower (Py.strip s)) = Py.lower (Py.strip s))
    as Hnorm.
  { intros s. rewrite lower_idem, strip_lower, strip_idem. auto. }
  split; [| split].
  - intros idx data. induction data as [| r data IH]; intros S x;
      cbn [lookup_set].
    + intros [= <-] Hx. set_solver.
    + intros (v & _ & Hrest)%bind_Ok.
      apply bind_Ok in Hrest as (S1 & HS1 & HS). injection HS as <-.
      destruct (truthy v); [| exact (IH _ _ HS1)].
      rewrite elem_of_union, elem_of_singleton.
      intros [-> | Hx]; [apply Hnorm | exact (IH _ _ HS1 Hx)].
  - intros v. unfold email_key.
    destruct (truthy v); [apply Hnorm | split; reflexivity].
  - intros s. unfold name_key, name_part.
    destruct (Py.split1 "-" s) as [| p [| q l]]; apply Hnorm.
Qed.

(** The keys of a padded manager-list cell and of a numeric cell. *)
Lemma keys_are_normal_witness :
  Py.lower "jane" = "jane" ∧ Py.strip "jane" = "jane".
Proof.
  apply (proj1 keys_are_normal 0 [[VStr " JANE "]; [VInt 0]] {["jane"]}).
  - vm_compute. reflexivity.
  - set_solver.
Defined.

(** ** Rows among the data *)

Lemma row_vals_lookup (r : row) (vals : list string) (j : nat) (h : string) :
  row_vals r = Ok vals → vals !! j = Some h →
  ∃ v, r !! j = Some v ∧ cell_text v = Ok h.
Proof.
  revert vals j. induction r as [| v r IH]; intros vals j; cbn [row_vals].
  - intros [= <-]. discriminate.
  - intros (s & Hs & Hrest)%bind_Ok.
    apply bind_Ok in Hrest as (ss & Hss & Hvals). injection Hvals as <-.
    destruct j as [| j]; cbn.
    + intros [= <-]. eauto.
    + exact (IH _ _ Hss).
Qed.

Lemma cell_text_nonblank (v : value) (h : string) :
  cell_text v = Ok h → h ≠ "" → is_group_header v = true.
Proof.
  unfold cell_text, or_empty.
  destruct v as [| b | n | s]; cbn.
  - intros [= <-] Hh. contradiction.
  - destruct b; [discriminate |]. intros [= <-] Hh. contradiction.
  - destruct (n =? 0)%Z; [| discriminate]. intros [= <-] Hh. contradiction.
  - destruct (String.eqb_spec s "") as [-> | Hs]; cbn [negb].
    + intros [= <-] Hh. contradiction.
    + intros [= <-] Hh. apply negb_true_iff, String.eqb_neq. exact Hh.
Qed.

(** X18: a row below the header that repeats the header's texts (a header
    printed again further down the sheet) is taken for a group header: it
    emits no entry, and its Level cell, the header's own text, becomes the
    level carried by the entries that follow. *)
Theorem repeated_header_is_group_header (all_rows : list row) (i : nat)
    (headers : list string) (ix : columns) (E N : gset string)
    (cur : value) (res : list entry) (r : row) :
  detect_header all_rows = Ok (i, headers) →
  locate_columns headers = Ok ix →
  row_vals r = Ok headers →
  is_group_header (cell r (idx_level ix)) = true
  ∧ filter_row ix E N (cur, res) r = Ok (cell r (idx_level ix), res).
Proof.
  intros Hdet Hix Hr.
  destruct (locate_columns_accepts headers (detect_header_accepts _ _ _ Hdet))
    as (ix' & Hix' & Hl & _).
  rewrite Hix in Hix'. injection Hix' as <-.
  apply first_index_Some in Hl as [(h & Hh & Hlevel) _].
  destruct (row_vals_lookup _ _ _ _ Hr Hh) as (v & Hv & Htext).
  assert (h ≠ "") as Hne by (intros ->; discriminate).
  pose proof (cell_text_nonblank v h Htext Hne) as Hgroup.
  assert (cell r (idx_level ix) = v) as -> by (unfold cell; rewrite Hv; done).
  split; [exact Hgroup |].
  unfold filter_row. rewrite (getitem_Some _ _ _ Hv). cbn. rewrite Hgroup.
  reflexivity.
Qed.

(** The header comes a second time, before Jane's row. *)
Lemma repeated_header_is_group_header_witness :
  is_group_header (cell Sample.header (idx_level Sample.ix)) = true
  ∧ filter_row Sample.ix Sample.emails ∅ (VStr "Team A", []) Sample.header =
    Ok (cell Sample.header (idx_level Sample.ix), []).
Proof.
  apply (repeated_header_is_group_header
           [Sample.header; Sample.team_a; Sample.header; Sample.jane] 0
           ["Level"; "Emp ID - Name"; "Email ID"; "Sum of Missing Time"]);
    vm_compute; reflexivity.
Defined.

(** X19: the loop reads a data row only at the four located columns: two
    lists of rows that agree there, row by row, give the same state, list of
    entries or exception, whatever their other cells and their lengths. *)
Theorem filter_reads_four_columns (ix : columns) (E N : gset string)
    (st : value * list entry) (data data' : list row) :
  Forall2 (λ r r' : row,
             r !! idx_level ix = r' !! idx_level ix
             ∧ r !! idx_email ix = r' !! idx_email ix
             ∧ r !! idx_empinfo ix = r' !! idx_empinfo ix
             ∧ r !! idx_missing ix = r' !! idx_missing ix) data data' →
  filter_rows ix E N st data = filter_rows ix E N st data'.
Proof.
  intros Hagree. revert st.
  induction Hagree as [| r r' data data' (Hl & He & Hi & Hm) _ IH]; intros st;
    [reflexivity |].
  cbn [filter_rows].
  assert (filter_row ix E N st r = filter_row ix E N st r') as ->.
  { destruct st as [cur res]. unfold filter_row, getitem.
    rewrite Hl, He, Hi, Hm. reflexivity. }
  destruct (filter_row ix E N st r'); cbn; auto.
Qed.

(** The two rows again, each with one more column. *)
Lemma filter_reads_four_columns_witness :
  filter_rows Sample.ix Sample.emails ∅ (VNone, [])
    [Sample.team_a; Sample.jane] =
  filter_rows Sample.ix Sample.emails ∅ (VNone, [])
    [[VStr "Team A"; VStr ""; VStr ""; VStr ""; VStr "north"];
     [VStr ""; VStr "1 - Jane"; VStr "a@x.com"; VInt 5; VStr "late"]].
Proof.
  apply (filter_reads_four_columns Sample.ix Sample.emails ∅ (VNone, [])).
  repeat constructor.
Defined.

(** X20: a row whose Email cell and EmployeeInfo cell are both empty
    ([None], the empty string, zero or [False]) is looked up under the empty
    key on both sides: it matches exactly when the empty string is in the
    email set or in the name set of the manager list. *)
Theorem empty_cells_match_iff (E N : gset string) (raw_email info : value) :
  truthy raw_email = false →
  truthy info = false →
  (matches E N raw_email (empinfo_of info) = true ↔ "" ∈ E ∨ "" ∈ N).
Proof.
  intros Hraw Hinfo. unfold matches, email_key, empinfo_of, or_empty.
  rewrite Hraw, Hinfo. change (name_key (str (VStr ""))) with "".
  rewrite orb_true_iff, !bool_decide_eq_true. reflexivity.
Qed.

(** A row without Email and without EmployeeInfo, against a manager list
    with a cell of one space. *)
Lemma empty_cells_match_iff_witness :
  matches {[""]} ∅ VNone (empinfo_of (VStr "")) = true ↔
  "" ∈ ({[""]} : gset string) ∨ "" ∈ (∅ : gset string).
Proof.
  apply (empty_cells_match_iff {[""]} ∅ VNone (VStr "")); reflexivity.
Defined.
